(** * simple-express-app: a shallow embedding of the Express demo

    The demo application of the repository (express/simple-express-app and
    the files its README lists: middleware/auth.js, middleware/error.js,
    middleware/socketAuth.js, models/User.js, models/Post.js) is embedded
    as Rocq functions.  JavaScript values are a small inductive type; the
    npm packages the code calls (jsonwebtoken, bcryptjs, validator) are
    interfaces, given as type classes; the Mongoose collections and the
    Socket.IO adapter are explicit state. *)

From Stdlib Require Import String Ascii ZArith List Bool Lia.
From stdpp Require Import gmap strings.
Import ListNotations.
Set Warnings "-register-all".
Local Open Scope Z_scope.
Local Open Scope string_scope.

(** ** JavaScript values *)

Inductive value : Type :=
  | VUndefined
  | VNull
  | VBool (b : bool)
  | VNum (n : Z)
  | VStr (s : string)
  | VDate (ms : Z)
  | VObjectId (oid : nat)
  | VArr (items : list value)
  | VObj (props : list (string * value)).

(** [!!v]: what [if (v)] and [v || w] test. *)
Definition truthy (v : value) : bool :=
  match v with
  | VUndefined | VNull => false
  | VBool b => b
  | VNum n => negb (Z.eqb n 0)
  | VStr s => negb (String.eqb s "")
  | VDate _ | VObjectId _ | VArr _ | VObj _ => true
  end.

(** [a || b] *)
Definition js_or (a b : value) : value := if truthy a then a else b.

Fixpoint assoc (k : string) (props : list (string * value)) : value :=
  match props with
  | [] => VUndefined
  | (k', v) :: rest => if String.eqb k k' then v else assoc k rest
  end.

(** [v.k]: reading a property of [undefined] or [null] throws a TypeError
    ([None]); a missing property reads as [undefined]. *)
Definition prop (v : value) (k : string) : option value :=
  match v with
  | VUndefined | VNull => None
  | VObj props => Some (assoc k props)
  | _ => Some VUndefined
  end.

(** [Object.values(v)]: throws on [undefined] and [null]. *)
Definition object_values (v : value) : option (list value) :=
  match v with
  | VUndefined | VNull => None
  | VObj props => Some (map snd props)
  | VArr items => Some items
  | VStr s => Some (map (fun c => VStr (String c EmptyString)) (list_ascii_of_string s))
  | _ => Some []
  end.

(** [xs.map(f)] for an [f] that may throw. *)
Fixpoint map_throwing {A B} (f : A -> option B) (xs : list A) : option (list B) :=
  match xs with
  | [] => Some []
  | x :: rest =>
      match f x with
      | None => None
      | Some y =>
          match map_throwing f rest with
          | None => None
          | Some ys => Some (y :: ys)
          end
      end
  end.

(** ** Strings *)

Fixpoint string_drop (n : nat) (s : string) : string :=
  match n, s with
  | O, _ => s
  | S n', String _ s' => string_drop n' s'
  | S _, EmptyString => EmptyString
  end.

(** [s.replace(pat, rep)] with a string pattern and a replacement that has
    no [$] in it: the first occurrence only. *)
Fixpoint replace_first (pat rep s : string) : string :=
  if String.prefix pat s then String.append rep (string_drop (String.length pat) s)
  else match s with
       | EmptyString => EmptyString
       | String c s' => String c (replace_first pat rep s')
       end.

(** White space as [\s] and [String.prototype.trim] see it, among the code
    units a [string] here holds (0..255). *)
Definition is_space (c : ascii) : bool :=
  let n := nat_of_ascii c in
  (Nat.leb 9 n && Nat.leb n 13) || Nat.eqb n 32 || Nat.eqb n 160.

Fixpoint trim_start (s : string) : string :=
  match s with
  | EmptyString => EmptyString
  | String c s' => if is_space c then trim_start s' else s
  end.

Fixpoint trim_end (s : string) : string :=
  match s with
  | EmptyString => EmptyString
  | String c s' =>
      match trim_end s' with
      | EmptyString => if is_space c then EmptyString else String c EmptyString
      | t => String c t
      end
  end.

Definition trim (s : string) : string := trim_end (trim_start s).

(** ** HTTP *)

Record Response : Type := mkResponse { status : Z; body : value }.

(** [res.status(code).json({ error: msg })] *)
Definition json_error (code : Z) (msg : string) : Response :=
  mkResponse code (VObj [("error", VStr msg)]).

(** ** jsonwebtoken *)

Class Jwt : Type := {
  (** [jwt.sign(payload, secret)] at the clock reading [Date.now()], which
      it stamps into the token as [iat]; [None] when it throws. *)
  jwt_sign : value -> string -> Z -> option string;
  (** [jwt.verify(token, secret)]: the decoded payload, [None] when it
      throws (bad signature, malformed or expired token). *)
  jwt_verify : string -> string -> option value
}.

(** ** middleware/auth.js *)

Section AuthMiddleware.
Context {jwt : Jwt}.
(** [process.env.JWT_SECRET] *)
Variable JWT_SECRET : string.

(** What the middleware sees of a request: the Authorization header
    ([req.header("Authorization")], [None] for [undefined]) and [req.user]. *)
Record AuthReq : Type := mkAuthReq { authorization : option string; user : value }.

(** The middleware either sends a response or calls [next()]. *)
Record AuthOutcome : Type := mkAuthOutcome {
  sent : option Response;
  next_called : bool;
  req_after : AuthReq
}.

(** [req.header("Authorization")?.replace("Bearer ", "")] *)
Definition bearer_token (req : AuthReq) : option string :=
  option_map (replace_first "Bearer " "") (authorization req).

(** [!token] *)
Definition no_token (t : option string) : bool :=
  match t with
  | None => true
  | Some s => String.eqb s ""
  end.

Definition deny (req : AuthReq) (msg : string) : AuthOutcome :=
  mkAuthOutcome (Some (json_error 401 msg)) false req.

Definition auth (req : AuthReq) : AuthOutcome :=
  match bearer_token req with
  | None => deny req "No token, authorization denied"
  | Some token =>
      if String.eqb token "" then deny req "No token, authorization denied"
      else
        match jwt_verify token JWT_SECRET with
        | None => deny req "Token is not valid"
        | Some decoded =>
            match prop decoded "id" with
            | None => deny req "Token is not valid"
            | Some id =>
                mkAuthOutcome None true
                  (mkAuthReq (authorization req) (VObj [("id", id)]))
            end
        end
  end.

(** [router.post("/", auth, handler)]: the handler runs only when the
    middleware called [next()], and then on the request it left. *)
Definition guarded {S : Type} (handler : AuthReq -> S -> Response * S)
    (req : AuthReq) (st : S) : Response * S :=
  let out := auth req in
  match sent out with
  | Some r => (r, st)
  | None => handler (req_after out) st
  end.

End AuthMiddleware.

(** ** middleware/error.js *)

(** What [errorHandler] reads of the error passed to [next(err)]:
    [err.name], [err.message], [err.code], [err.errors], and, through the
    copy [{ ...err }], the error's own [statusCode] when it has one. *)
Record JsError : Type := mkJsError {
  err_name : string;
  err_message : value;
  err_code : value;
  err_statusCode : option Z;
  err_errors : value
}.

(** [v === n] for a number literal [n]. *)
Definition strict_eq_num (v : value) (n : Z) : bool :=
  match v with
  | VNum m => Z.eqb m n
  | _ => false
  end.

(** The local [error] of the handler: its [message] and [statusCode]. *)
Record ErrorInfo : Type := mkErrorInfo { message : value; statusCode : option Z }.

(** [error.statusCode || 500] *)
Definition status_or (sc : option Z) (dflt : Z) : Z :=
  match sc with
  | Some c => if Z.eqb c 0 then dflt else c
  | None => dflt
  end.

(** [Object.values(err.errors).map((val) => val.message)] *)
Definition validation_messages (errors : value) : option (list value) :=
  match object_values errors with
  | None => None
  | Some vals => map_throwing (fun val => prop val "message") vals
  end.

(** The status codes that go out without a body: Node drops the body of
    a 1xx, 204 or 304 response, and Express (4.18 and later) that of a 205. *)
Definition bodiless (code : Z) : bool :=
  Z.ltb code 200 || Z.eqb code 204 || Z.eqb code 205 || Z.eqb code 304.

(** [res.status(code).json(body)]: a status code outside 100..999 is
    refused with a RangeError, and nothing is sent ([None]); a bodiless
    status goes out alone ([undefined] for the body). *)
Definition send_json (code : Z) (body : value) : option Response :=
  if Z.leb 100 code && Z.leb code 999
  then Some (mkResponse code (if bodiless code then VUndefined else body))
  else None.

(** The three [if]s of the handler follow one another (none is an [else]),
    so a later match overwrites an earlier one.  [None]: the handler threw
    before it sent a response. *)
Definition errorHandler (err : JsError) : option Response :=
  let error0 := mkErrorInfo (err_message err) (err_statusCode err) in
  let error1 :=
    if String.eqb (err_name err) "CastError"
    then mkErrorInfo (VStr "Resource not found") (Some 404) else error0 in
  let error2 :=
    if strict_eq_num (err_code err) 11000
    then mkErrorInfo (VStr "Duplicate field value entered") (Some 400) else error1 in
  let error3 :=
    if String.eqb (err_name err) "ValidationError"
    then option_map (fun msgs => mkErrorInfo (VArr msgs) (Some 400))
           (validation_messages (err_errors err))
    else Some error2 in
  match error3 with
  | None => None
  | Some error =>
      send_json (status_or (statusCode error) 500)
        (VObj [("success", VBool false);
               ("error", js_or (message error) (VStr "Server Error"))])
  end.

(** [new Error(msg)]: the name is inherited, nothing else is set. *)
Definition new_Error (msg : string) : JsError :=
  mkJsError "Error" (VStr msg) VUndefined None VUndefined.

(** app.js, [GET /test-error]: an [Error("Test error")] renamed CastError
    and handed to [next]. *)
Definition test_error_route : option Response :=
  let error := new_Error "Test error" in
  errorHandler (mkJsError "CastError" (err_message error) (err_code error)
                  (err_statusCode error) (err_errors error)).

(** The body every response of [errorHandler] has. *)
Definition failure_body (msg : value) : value :=
  VObj [("success", VBool false); ("error", msg)].

(** The handler as a decision table, first matching row wins: the order
    is the reverse of the order of the [if]s in the source. *)
Definition errorHandler_table (err : JsError) : option Response :=
  if String.eqb (err_name err) "ValidationError" then
    option_map (fun msgs => mkResponse 400 (failure_body (VArr msgs)))
      (validation_messages (err_errors err))
  else if strict_eq_num (err_code err) 11000 then
    Some (mkResponse 400 (failure_body (VStr "Duplicate field value entered")))
  else if String.eqb (err_name err) "CastError" then
    Some (mkResponse 404 (failure_body (VStr "Resource not found")))
  else
    send_json (status_or (err_statusCode err) 500)
      (failure_body (js_or (err_message err) (VStr "Server Error"))).

(** An error of an application's own, [statusCode] 403. *)
Definition forbidden_error : JsError :=
  mkJsError "Error" (VStr "Forbidden") VUndefined (Some 403) VUndefined.

(** A CastError that also carries the duplicate-key code. *)
Definition cast_and_duplicate_error : JsError :=
  mkJsError "CastError" (VStr "Cast to ObjectId failed") (VNum 11000) None VUndefined.

(** ** bcryptjs and validator *)

Class Bcrypt : Type := {
  (** [bcrypt.hash(password, rounds)] of a string; the third argument
      stands for the salt the call draws. *)
  bcrypt_hash : string -> Z -> nat -> string;
  (** [bcrypt.compare(candidate, hash)] of two strings *)
  bcrypt_compare : string -> string -> bool
}.

(** The first [n] characters of a string. *)
Fixpoint string_take (n : nat) (s : string) : string :=
  match n, s with
  | S n', String c s' => String c (string_take n' s')
  | _, _ => EmptyString
  end.

(** bcrypt keys its cipher with the first 72 bytes of the password and
    reads no further: two passwords with the same first 72 characters
    have the same key. *)
Definition bcrypt_key (password : string) : string := string_take 72 password.

(** What is used of bcrypt: [compare] hashes the candidate with the salt
    and the rounds the hash records and compares the results, so a
    candidate with the key of the hashed password is accepted; and a hash
    is not its password.  Nothing is assumed of a candidate with another
    key. *)
Class BcryptLaws (B : Bcrypt) : Prop := {
  compare_same_key : forall c p r salt,
    bcrypt_key c = bcrypt_key p -> bcrypt_compare c (bcrypt_hash p r salt) = true;
  hash_differs : forall p r salt, bcrypt_hash p r salt <> p
}.

(** validator.js, as express-validator calls it. *)
Class Validator : Type := {
  isEmail : string -> bool;
  normalizeEmail : string -> string
}.

(** ** Mongoose schemas *)

Inductive SchemaType : Type := SString | SObjectId.

Record PathOptions : Type := mkPath {
  type : SchemaType;
  required : bool;
  unique : bool;
  trim_setter : bool;
  ref : option string
}.

Record Schema : Type := mkSchema {
  paths : list (string * PathOptions);
  timestamps : bool
}.

(** models/User.js *)
Definition userSchema : Schema :=
  mkSchema
    [("name", mkPath SString true false true None);
     ("email", mkPath SString true true false None);
     ("password", mkPath SString true false false None)]
    true.

(** models/Post.js *)
Definition postSchema : Schema :=
  mkSchema
    [("title", mkPath SString true false false None);
     ("content", mkPath SString true false false None);
     ("author", mkPath SObjectId true false false (Some "User"))]
    true.

(** The value of a path of a document: not set, a string or an ObjectId. *)
Inductive field : Type := Absent | Str (s : string) | Oid (id : nat).

Definition of_string (v : option string) : field :=
  match v with Some s => Str s | None => Absent end.

Definition of_oid (v : option nat) : field :=
  match v with Some n => Oid n | None => Absent end.

Fixpoint schema_path (k : string) (ps : list (string * PathOptions)) : option PathOptions :=
  match ps with
  | [] => None
  | (k', o) :: rest => if String.eqb k k' then Some o else schema_path k rest
  end.

Fixpoint lookup_field (k : string) (fs : list (string * field)) : field :=
  match fs with
  | [] => Absent
  | (k', v) :: rest => if String.eqb k k' then v else lookup_field k rest
  end.

(** Setting a string path runs its setters: [trim: true] trims. *)
Definition set_string (s : Schema) (k : string) (v : option string) : option string :=
  match schema_path k (paths s) with
  | Some o => if trim_setter o then option_map trim v else v
  | None => v
  end.

Definition well_typed (o : PathOptions) (v : field) : bool :=
  match type o, v with
  | _, Absent => true
  | SString, Str _ => true
  | SObjectId, Oid _ => true
  | _, _ => false
  end.

(** The [required] validator: a value must be there, and a string must
    not be empty. *)
Definition required_ok (o : PathOptions) (v : field) : bool :=
  negb (required o)
  || match v with
     | Absent => false
     | Str s => negb (String.eqb s "")
     | Oid _ => true
     end.

(** [doc.validate()]: the paths that fail.  [required] is the only
    validator the two schemas declare. *)
Definition validate (s : Schema) (fs : list (string * field)) : list string :=
  map fst
    (List.filter (fun ko => negb (well_typed (snd ko) (lookup_field (fst ko) fs)
                             && required_ok (snd ko) (lookup_field (fst ko) fs)))
       (paths s)).

(** The uniquely indexed paths of a schema. *)
Definition unique_paths (s : Schema) : list string :=
  map fst (List.filter (fun ko => unique (snd ko)) (paths s)).

(** ** The collections *)

(** A stored user. *)
Record UserRecord : Type := mkUserRecord {
  u_id : nat;
  u_name : string;
  u_email : string;
  u_password : string;
  u_createdAt : Z;
  u_updatedAt : Z
}.

(** A stored post. *)
Record PostRecord : Type := mkPostRecord {
  p_id : nat;
  p_title : string;
  p_content : string;
  p_author : nat;
  p_createdAt : Z;
  p_updatedAt : Z
}.

Inductive DbCall : Type :=
  | CallFindOneUser (email : string)
  | CallSaveUser (id : nat)
  | CallSavePost (id : nat).

(** The state the handlers run in: the two collections, the next
    ObjectId, the next salt, the clock, and what was asked of the database
    and written to the console so far (latest first). *)
Record World : Type := mkWorld {
  users : list UserRecord;
  posts : list PostRecord;
  next_id : nat;
  rng : nat;
  now : Z;
  calls : list DbCall;
  console : list (list value)
}.

Definition with_users (us : list UserRecord) (w : World) : World :=
  mkWorld us (posts w) (next_id w) (rng w) (now w) (calls w) (console w).
Definition with_posts (ps : list PostRecord) (w : World) : World :=
  mkWorld (users w) ps (next_id w) (rng w) (now w) (calls w) (console w).
Definition fresh_id (w : World) : World :=
  mkWorld (users w) (posts w) (S (next_id w)) (rng w) (now w) (calls w) (console w).
Definition fresh_salt (w : World) : World :=
  mkWorld (users w) (posts w) (next_id w) (S (rng w)) (now w) (calls w) (console w).
Definition called (c : DbCall) (w : World) : World :=
  mkWorld (users w) (posts w) (next_id w) (rng w) (now w) (c :: calls w) (console w).
Definition console_log (line : list value) (w : World) : World :=
  mkWorld (users w) (posts w) (next_id w) (rng w) (now w) (calls w) (line :: console w).

(** ** models/User.js *)

(** The object handed to [new User({ name, email, password })]; [None] is
    a property that is [undefined]. *)
Record UserInput : Type := mkUserInput {
  in_name : option string;
  in_email : option string;
  in_password : option string
}.

(** A document in memory: its paths, whether it was ever saved, and
    whether [isModified("password")] holds. *)
Record UserDocument : Type := mkUserDocument {
  d_id : nat;
  d_name : option string;
  d_email : option string;
  d_password : option string;
  d_createdAt : option Z;
  d_isNew : bool;
  d_passwordModified : bool
}.

Definition is_some {A} (o : option A) : bool :=
  match o with Some _ => true | None => false end.

(** [new User(input)] with the ObjectId [id]. *)
Definition new_User (id : nat) (i : UserInput) : UserDocument :=
  mkUserDocument id
    (set_string userSchema "name" (in_name i))
    (set_string userSchema "email" (in_email i))
    (set_string userSchema "password" (in_password i))
    None true (is_some (in_password i)).

(** The document Mongoose hands back for a stored user. *)
Definition document_of (u : UserRecord) : UserDocument :=
  mkUserDocument (u_id u) (Some (u_name u)) (Some (u_email u)) (Some (u_password u))
    (Some (u_createdAt u)) false false.

Definition option_string_eqb (a b : option string) : bool :=
  match a, b with
  | Some x, Some y => String.eqb x y
  | None, None => true
  | _, _ => false
  end.

(** [doc.name = v] *)
Definition set_name (v : string) (d : UserDocument) : UserDocument :=
  mkUserDocument (d_id d) (set_string userSchema "name" (Some v)) (d_email d)
    (d_password d) (d_createdAt d) (d_isNew d) (d_passwordModified d).

(** [doc.email = v] *)
Definition set_email (v : string) (d : UserDocument) : UserDocument :=
  mkUserDocument (d_id d) (d_name d) (set_string userSchema "email" (Some v))
    (d_password d) (d_createdAt d) (d_isNew d) (d_passwordModified d).

(** [doc.password = v]: the path counts as modified when the value changes. *)
Definition set_password (v : string) (d : UserDocument) : UserDocument :=
  let v' := set_string userSchema "password" (Some v) in
  mkUserDocument (d_id d) (d_name d) (d_email d) v' (d_createdAt d) (d_isNew d)
    (d_passwordModified d || negb (option_string_eqb (d_password d) v')).

Definition user_fields (d : UserDocument) : list (string * field) :=
  [("name", of_string (d_name d));
   ("email", of_string (d_email d));
   ("password", of_string (d_password d))].

Definition record_fields (u : UserRecord) : list (string * field) :=
  [("name", Str (u_name u)); ("email", Str (u_email u)); ("password", Str (u_password u))].

Definition field_eqb (a b : field) : bool :=
  match a, b with
  | Str x, Str y => String.eqb x y
  | Oid x, Oid y => Nat.eqb x y
  | Absent, Absent => true
  | _, _ => false
  end.

(** Whether another stored user has the same value on a uniquely indexed
    path of [userSchema]. *)
Definition duplicate_key (d : UserDocument) (us : list UserRecord) : bool :=
  existsb
    (fun k =>
       existsb
         (fun u => negb (Nat.eqb (u_id u) (d_id d))
                   && field_eqb (lookup_field k (user_fields d))
                        (lookup_field k (record_fields u)))
         us)
    (unique_paths userSchema).

Definition validation_error (failed : list string) : JsError :=
  mkJsError "ValidationError" (VStr "Validation failed") VUndefined None
    (VObj (map (fun k => (k, VObj [("message",
                                     VStr (String.append "Path `"
                                             (String.append k "` is required.")))]))
             failed)).

Definition duplicate_key_error : JsError :=
  mkJsError "MongoServerError" (VStr "E11000 duplicate key error") (VNum 11000) None
    VUndefined.

Definition thrown (name msg : string) : JsError :=
  mkJsError name (VStr msg) VUndefined None VUndefined.

Fixpoint replace_user (r : UserRecord) (us : list UserRecord) : list UserRecord :=
  match us with
  | [] => []
  | u :: rest => if Nat.eqb (u_id u) (u_id r) then r :: rest else u :: replace_user r rest
  end.

Section UserModel.
Context {bc : Bcrypt}.

(** [userSchema.pre("save", ...)]: an unmodified password is left alone,
    a modified one is replaced by [bcrypt.hash(this.password, 10)].
    [None]: [bcrypt.hash] rejected a password that is not a string. *)
Definition pre_save (d : UserDocument) (salt : nat) : option UserDocument :=
  if negb (d_passwordModified d) then Some d
  else
    match d_password d with
    | Some p =>
        Some (mkUserDocument (d_id d) (d_name d) (d_email d)
                (Some (bcrypt_hash p 10 salt)) (d_createdAt d) (d_isNew d)
                (d_passwordModified d))
    | None => None
    end.

(** [userSchema.methods.comparePassword]; [None]: [bcrypt.compare]
    rejected because the candidate or [this.password] is not a string. *)
Definition comparePassword (d : UserDocument) (candidatePassword : value) : option bool :=
  match candidatePassword, d_password d with
  | VStr c, Some h => Some (bcrypt_compare c h)
  | _, _ => None
  end.

(** [doc.save()]: Mongoose validates first, then runs the schema's
    pre-save hook, then writes (an insert for a new document, an update
    otherwise), and the unique index refuses a second user with the
    email.  [inl]: the error it rejects with. *)
Definition User_save (d : UserDocument) (w0 : World) : (JsError + UserDocument) * World :=
  let w := called (CallSaveUser (d_id d)) w0 in
  match validate userSchema (user_fields d) with
  | (_ :: _) as failed => (inl (validation_error failed), w)
  | [] =>
      match pre_save d (rng w) with
      | None => (inl (thrown "Error" "Illegal arguments"), w)
      | Some d1 =>
          let w1 := if d_passwordModified d then fresh_salt w else w in
          match d_name d1, d_email d1, d_password d1 with
          | Some n, Some e, Some pw =>
              if duplicate_key d1 (users w1) then (inl duplicate_key_error, w1)
              else
                let r := mkUserRecord (d_id d1) n e pw
                           (match d_createdAt d1 with Some c => c | None => now w1 end)
                           (now w1) in
                if d_isNew d1 then
                  (inr (document_of r), with_users (users w1 ++ [r])%list w1)
                else if existsb (fun u => Nat.eqb (u_id u) (d_id d1)) (users w1) then
                  (inr (document_of r), with_users (replace_user r (users w1)) w1)
                else (inl (thrown "DocumentNotFoundError" "No document found"), w1)
          | _, _, _ => (inl (validation_error (map fst (paths userSchema))), w1)
          end
      end
  end.

(** [User.findOne({ email })]: the first stored user with that email. *)
Definition User_findOne (email : string) (w : World) : option UserDocument * World :=
  (option_map document_of (find (fun u => String.eqb (u_email u) email) (users w)),
   called (CallFindOneUser email) w).

(** [User.create(input)]: a new document, saved. *)
Definition User_create (i : UserInput) (w : World) : (JsError + UserDocument) * World :=
  User_save (new_User (next_id w) i) (fresh_id w).

End UserModel.

(** ** models/Post.js *)

Record PostInput : Type := mkPostInput {
  in_title : option string;
  in_content : option string;
  in_author : option nat
}.

Definition post_fields (i : PostInput) : list (string * field) :=
  [("title", of_string (set_string postSchema "title" (in_title i)));
   ("content", of_string (set_string postSchema "content" (in_content i)));
   ("author", of_oid (in_author i))].

(** [new Post(input).save()]: validation, then the insert; nothing looks
    the author up. *)
Definition Post_save (i : PostInput) (w0 : World) : (JsError + PostRecord) * World :=
  let id := next_id w0 in
  let w := called (CallSavePost id) (fresh_id w0) in
  match validate postSchema (post_fields i) with
  | (_ :: _) as failed => (inl (validation_error failed), w)
  | [] =>
      match set_string postSchema "title" (in_title i),
            set_string postSchema "content" (in_content i), in_author i with
      | Some t, Some c, Some a =>
          let r := mkPostRecord id t c a (now w) (now w) in
          (inr r, with_posts (posts w ++ [r])%list w)
      | _, _, _ => (inl (validation_error (map fst (paths postSchema))), w)
      end
  end.

(** ** routes/auth.js *)

(** One entry of [errors.array()]. *)
Record FieldError : Type := mkFieldError {
  fe_path : string;
  fe_msg : string;
  fe_value : value
}.

Definition error_entry (e : FieldError) : value :=
  VObj [("type", VStr "field"); ("value", fe_value e); ("msg", VStr (fe_msg e));
        ("path", VStr (fe_path e)); ("location", VStr "body")].

(** express-validator's validators and sanitizers read a missing field as
    the empty string. *)
Definition to_s (v : option string) : string :=
  match v with Some s => s | None => "" end.

(** The field as an error entry reports it when no sanitizer ran before
    the failing validator: a missing field is [undefined]. *)
Definition reported (v : option string) : value :=
  match v with Some s => VStr s | None => VUndefined end.

(** The body of [POST /login]: the email a string, the password whatever
    the request carried ([VUndefined] when it carried none). *)
Record LoginBody : Type := mkLoginBody { login_email : string; login_password : value }.

Section AuthRoutes.
Context {jwt : Jwt} {bc : Bcrypt} {vd : Validator}.
Variable JWT_SECRET : string.

(** The three validation chains of [POST /register], run in order: the
    errors they report, and the body their sanitizers ([trim],
    [normalizeEmail]) leave in [req.body]. *)
Definition register_chain (b : UserInput) : list FieldError * UserInput :=
  let name := trim (to_s (in_name b)) in
  let email := to_s (in_email b) in
  let password := to_s (in_password b) in
  (((if Nat.ltb (String.length name) 2
     then [mkFieldError "name" "Name must be at least 2 characters" (VStr name)] else [])
    ++ (if isEmail email
        then [] else [mkFieldError "email" "Invalid email" (reported (in_email b))])
    ++ (if Nat.ltb (String.length password) 6
        then [mkFieldError "password" "Password must be at least 6 characters"
                (reported (in_password b))]
        else []))%list,
   mkUserInput (Some name) (Some (normalizeEmail email)) (in_password b)).

Definition user_json (id : nat) (name email : string) : value :=
  VObj [("id", VObjectId id); ("name", VStr name); ("email", VStr email)].

Definition token_body (token : string) (u : value) : value :=
  VObj [("token", VStr token); ("user", u)].

(** [router.post("/register", [...], async (req, res) => ...)] *)
Definition register (b : UserInput) (w : World) : Response * World :=
  let (errors, body) := register_chain b in
  match errors with
  | _ :: _ => (mkResponse 400 (VObj [("errors", VArr (map error_entry errors))]), w)
  | [] =>
      let name := to_s (in_name body) in
      let email := to_s (in_email body) in
      let (existingUser, w1) := User_findOne email w in
      match existingUser with
      | Some _ => (json_error 400 "User already exists", w1)
      | None =>
          let user := new_User (next_id w1) body in
          match User_save user (fresh_id w1) with
          | (inl _, w2) => (json_error 500 "Server error", w2)
          | (inr saved, w2) =>
              match jwt_sign (VObj [("id", VObjectId (d_id saved))]) JWT_SECRET (now w2) with
              | None => (json_error 500 "Server error", w2)
              | Some token =>
                  (mkResponse 201 (token_body token (user_json (d_id saved) name email)), w2)
              end
          end
      end
  end.

(** [req.body] as the first console line shows it. *)
Definition login_body_json (b : LoginBody) : value :=
  VObj (("email", VStr (login_email b))
        :: match login_password b with
           | VUndefined => []
           | password => [("password", password)]
           end).

(** [router.post("/login", async (req, res) => ...)] *)
Definition login (b : LoginBody) (w0 : World) : Response * World :=
  let w := console_log [VStr "Login request received:"; login_body_json b] w0 in
  let email := login_email b in
  let (user, w1) := User_findOne email w in
  match user with
  | None =>
      (json_error 400 "Invalid credentials",
       console_log [VStr "User not found:"; VStr email] w1)
  | Some u =>
      match comparePassword u (login_password b) with
      | None =>
          (json_error 500 "Server error",
           console_log [VStr "Login error:"; VStr "Illegal arguments"] w1)
      | Some false =>
          (json_error 400 "Invalid credentials",
           console_log [VStr "Password mismatch for user:"; VStr email] w1)
      | Some true =>
          match jwt_sign (VObj [("id", VObjectId (d_id u))]) JWT_SECRET (now w1) with
          | None =>
              (json_error 500 "Server error",
               console_log [VStr "Login error:"; VStr "jwt.sign failed"] w1)
          | Some token =>
              (mkResponse 200
                 (token_body token (user_json (d_id u) (to_s (d_name u)) email)),
               console_log [VStr "Login successful for user:"; VStr email;
                            VStr "token generated"] w1)
          end
      end
  end.

End AuthRoutes.

(** ** routes/posts.js *)

(** [post.populate("author", "name email")]: the author's id is replaced
    by the user's [_id], [name] and [email], or by [null] when no user
    has the id. *)
Definition populate_author (a : nat) (w : World) : value :=
  match find (fun u => Nat.eqb (u_id u) a) (users w) with
  | Some u =>
      VObj [("_id", VObjectId (u_id u)); ("name", VStr (u_name u));
            ("email", VStr (u_email u))]
  | None => VNull
  end.

Definition post_json (r : PostRecord) (w : World) : value :=
  VObj [("_id", VObjectId (p_id r)); ("title", VStr (p_title r));
        ("content", VStr (p_content r)); ("author", populate_author (p_author r) w);
        ("createdAt", VDate (p_createdAt r)); ("updatedAt", VDate (p_updatedAt r));
        ("__v", VNum 0)].

(** The handler of [router.post("/", auth, ...)], on the [title] and
    [content] of the body and the request [auth] left.  ObjectIds travel
    as [VObjectId]; any other [req.user.id] fails the cast of [author],
    which the save reports. *)
Definition create_post (title content : option string) (req : AuthReq) (w : World)
  : Response * World :=
  match prop (user req) "id" with
  | Some (VObjectId a) =>
      match Post_save (mkPostInput title content (Some a)) w with
      | (inr r, w1) => (mkResponse 201 (post_json r w1), w1)
      | (inl _, w1) => (json_error 500 "Server error", w1)
      end
  | Some VUndefined | Some VNull =>
      match Post_save (mkPostInput title content None) w with
      | (inr r, w1) => (mkResponse 201 (post_json r w1), w1)
      | (inl _, w1) => (json_error 500 "Server error", w1)
      end
  | Some _ => (json_error 500 "Server error", called (CallSavePost (next_id w)) (fresh_id w))
  | None => (json_error 500 "Server error", w)
  end.

(** [POST /api/posts] *)
Definition posts_create {jwt : Jwt} (JWT_SECRET : string) (title content : option string)
    (req : AuthReq) (w : World) : Response * World :=
  guarded JWT_SECRET (create_post title content) req w.

(** ** Socket.IO *)

(** Whom an [emit] addresses. *)
Inductive target : Type :=
  | IoTo (room : value)                      (* io.to(room) *)
  | SocketTo (sid : string) (room : value)   (* socket.to(room) *)
  | SocketBroadcast (sid : string)           (* socket.broadcast *)
  | SocketSelf (sid : string).               (* socket *)

(** What a listener does to the outside. *)
Inductive effect : Type :=
  | Log (line : list value)
  | Join (sid : string) (room : value)
  | Emit (to : target) (event : string) (payload : value).

(** The properties of a socket the code reads and writes. *)
Record SocketData : Type := mkSocketData {
  socket_id : string;
  userId : value;
  socket_user : value
}.

(** A call of a listener: the socket as it leaves it, what it did, and
    whether it threw. *)
Record Outcome : Type := mkOutcome {
  after : SocketData;
  effects : list effect;
  threw : bool
}.

(** The listeners the application registers, and any other function. *)
Inductive listener : Type :=
  | on_join
  | on_sendMessage
  | on_typing
  | on_stopTyping
  | on_sendNotification
  | on_disconnect_log
  | on_newPost
  | on_addComment
  | on_userOnline
  | on_disconnect_presence (originalDisconnect : option listener)
  | foreign (run : SocketData -> value -> Outcome).

(** The adapter of the server: who is connected, and who is in which
    room.  Rooms are named by strings. *)
Record Adapter : Type := mkAdapter {
  connected : gset string;
  rooms : gmap string (gset string)
}.

Definition members (a : Adapter) (room : value) : gset string :=
  match room with
  | VStr name => default ∅ (rooms a !! name)
  | _ => ∅
  end.

(** The sockets an [emit] reaches. *)
Definition recipients (a : Adapter) (t : target) : gset string :=
  match t with
  | IoTo room => members a room
  | SocketTo sid room => members a room ∖ {[sid]}
  | SocketBroadcast sid => connected a ∖ {[sid]}
  | SocketSelf sid => {[sid]}
  end.

(** [socket.join(room)] *)
Definition join (a : Adapter) (sid : string) (room : value) : Adapter :=
  match room with
  | VStr name => mkAdapter (connected a) (<[name := {[sid]} ∪ members a room]> (rooms a))
  | _ => a
  end.

Definition status_changed (uid : value) (st : string) : value :=
  VObj [("userId", uid); ("status", VStr st)].

Definition typing_payload (u : value) (isTyping : bool) : value :=
  VObj [("user", u); ("isTyping", VBool isTyping)].

Definition failed (s : SocketData) (msg : string) : Outcome :=
  mkOutcome s [Emit (SocketSelf (socket_id s)) "error" (VObj [("message", VStr msg)])] false.

(** [l(arg)] on the socket [s] at the time [now]. *)
Fixpoint run_listener (now : Z) (l : listener) (s : SocketData) (arg : value) : Outcome :=
  match l with
  | on_join =>
      mkOutcome s
        [Join (socket_id s) arg; Log [VStr "User "; arg; VStr " joined room"]] false
  | on_sendMessage =>
      (* const { message, room, sender } = data *)
      match prop arg "message", prop arg "room", prop arg "sender" with
      | Some message, Some room, Some sender =>
          mkOutcome s
            [Emit (IoTo room) "message"
               (VObj [("message", message); ("sender", sender);
                      ("timestamp", VDate now)])]
            false
      | _, _, _ => mkOutcome s [] true
      end
  | on_typing =>
      match prop arg "room", prop arg "user" with
      | Some room, Some u =>
          mkOutcome s [Emit (SocketTo (socket_id s) room) "userTyping" (typing_payload u true)]
            false
      | _, _ => mkOutcome s [] true
      end
  | on_stopTyping =>
      match prop arg "room", prop arg "user" with
      | Some room, Some u =>
          mkOutcome s [Emit (SocketTo (socket_id s) room) "userTyping" (typing_payload u false)]
            false
      | _, _ => mkOutcome s [] true
      end
  | on_sendNotification =>
      match prop arg "userId", prop arg "notification" with
      | Some uid, Some notification =>
          mkOutcome s [Emit (IoTo uid) "notification" notification] false
      | _, _ => mkOutcome s [] true
      end
  | on_disconnect_log =>
      mkOutcome s [Log [VStr "User disconnected:"; VStr (socket_id s)]] false
  | on_newPost =>
      (* routes/socket.js never binds [Post]: [new Post(postData)] throws
         inside the [try], and the [catch] reports it. *)
      failed s "Failed to create post"
  | on_addComment =>
      match prop arg "postId", prop arg "comment", prop arg "userId" with
      | Some postId, Some comment, Some uid =>
          mkOutcome s
            [Emit (SocketTo (socket_id s) postId) "commentAdded"
               (VObj [("postId", postId); ("comment", comment); ("userId", uid);
                      ("timestamp", VDate now)])]
            false
      | _, _, _ => failed s "Failed to add comment"
      end
  | on_userOnline =>
      mkOutcome (mkSocketData (socket_id s) arg (socket_user s))
        [Emit (SocketBroadcast (socket_id s)) "userStatusChanged" (status_changed arg "online")]
        false
  | on_disconnect_presence originalDisconnect =>
      let presence :=
        if truthy (userId s)
        then [Emit (SocketBroadcast (socket_id s)) "userStatusChanged"
                (status_changed (userId s) "offline")]
        else [] in
      match originalDisconnect with
      | Some original =>
          let o := run_listener now original s VUndefined in
          mkOutcome (after o) (presence ++ effects o)%list (threw o)
      | None => mkOutcome s presence false
      end
  | foreign run => run s arg
  end.

(** A socket: its properties and its listeners, in the order they were
    registered. *)
Record Socket : Type := mkSocket {
  data : SocketData;
  registered : list (string * listener)
}.

(** [socket.on(event, l)] *)
Definition on (event : string) (l : listener) (s : Socket) : Socket :=
  mkSocket (data s) (registered s ++ [(event, l)])%list.

(** [socket.listeners(event)] *)
Definition listeners (event : string) (s : Socket) : list listener :=
  map snd (List.filter (fun el => String.eqb (fst el) event) (registered s)).

(** [socket.removeAllListeners(event)] *)
Definition removeAllListeners (event : string) (s : Socket) : Socket :=
  mkSocket (data s) (List.filter (fun el => negb (String.eqb (fst el) event)) (registered s)).

(** Calling listeners one after the other; a throw ends the run. *)
Fixpoint run_all (now : Z) (ls : list listener) (s : SocketData) (arg : value) : Outcome :=
  match ls with
  | [] => mkOutcome s [] false
  | l :: rest =>
      let o := run_listener now l s arg in
      if threw o then o
      else
        let o' := run_all now rest (after o) arg in
        mkOutcome (after o') (effects o ++ effects o')%list (threw o')
  end.

(** The socket receives [event] with [arg]. *)
Definition dispatch (now : Z) (s : Socket) (event : string) (arg : value) : Socket * Outcome :=
  let o := run_all now (listeners event s) (data s) arg in
  (mkSocket (after o) (registered s), o).

(** routes/socket.js: [module.exports = (socket) => { ... }] *)
Definition socket_routes (socket : Socket) : Socket :=
  let s1 := on "userOnline" on_userOnline
              (on "addComment" on_addComment (on "newPost" on_newPost socket)) in
  let originalDisconnect := hd_error (listeners "disconnect" s1) in
  let s2 := removeAllListeners "disconnect" s1 in
  on "disconnect" (on_disconnect_presence originalDisconnect) s2.

(** app.js: [io.on("connection", (socket) => { ... })] on a socket that
    has no listener yet. *)
Definition connection (d : SocketData) : Socket * list effect :=
  let s := mkSocket d [] in
  (socket_routes
     (on "disconnect" on_disconnect_log
        (on "sendNotification" on_sendNotification
           (on "stopTyping" on_stopTyping
              (on "typing" on_typing
                 (on "sendMessage" on_sendMessage (on "join" on_join s)))))),
   [Log [VStr "User connected:"; VStr (socket_id d)]]).

(** The events of a list, one after the other; a throw ends the run. *)
Fixpoint run_events (now : Z) (s : Socket) (events : list (string * value))
  : Socket * list effect * bool :=
  match events with
  | [] => (s, [], false)
  | (event, arg) :: rest =>
      let (s1, o) := dispatch now s event arg in
      if threw o then (s1, effects o, true)
      else
        let '(s2, es, t) := run_events now s1 rest in
        (s2, (effects o ++ es)%list, t)
  end.

Section SocketAuth.
Context {jwt : Jwt}.
Variable JWT_SECRET : string.

(** middleware/socketAuth.js on the handshake's [auth.token]: [Some] is
    the socket [next()] lets through, [None] a connection refused with
    "Authentication error" (the console lines are left out). *)
Definition socketAuth (token : option string) (s : SocketData) : option SocketData :=
  match token with
  | None => None
  | Some t =>
      if String.eqb t "" then None
      else
        match jwt_verify t JWT_SECRET with
        | None => None
        | Some decoded =>
            match prop decoded "id" with
            | None => None
            | Some id => Some (mkSocketData (socket_id s) id decoded)
            end
        end
  end.

End SocketAuth.

(** A verifier for examples: it accepts the one token [good.token] under
    the secret [s3cret] and decodes it to the payload that
    [jwt.sign({ id: "u1" }, secret)] signs, [id] and the issued-at stamp. *)
Definition fixture_payload : value :=
  VObj [("id", VStr "u1"); ("iat", VNum 1700000000)].

#[local] Instance fixture_jwt : Jwt := {|
  jwt_sign := fun _ _ _ => Some "good.token";
  jwt_verify := fun token secret =>
    if String.eqb token "good.token" && String.eqb secret "s3cret"
    then Some fixture_payload else None
|}.

(** A stand-in for bcryptjs in examples: the hash is the key of the
    password behind a marker, whatever the rounds and the salt; the marker
    begins with a character the password does not begin with. *)
Definition fixture_marker (p : string) : string :=
  match p with
  | String c _ => if Ascii.eqb c "$" then "#2a$" else "$2a$"
  | EmptyString => "$2a$"
  end.

Definition fixture_hash (p : string) : string :=
  String.append (fixture_marker p) (bcrypt_key p).

#[local] Instance fixture_bcrypt : Bcrypt := {|
  bcrypt_hash := fun p _ _ => fixture_hash p;
  bcrypt_compare := fun c h => String.eqb h (fixture_hash c)
|}.

(** A stand-in for validator.js in examples: an email is a string with an
    at sign, and normalizing changes nothing. *)
#[local] Instance fixture_validator : Validator := {|
  isEmail := fun s => existsb (Ascii.eqb "@") (list_ascii_of_string s);
  normalizeEmail := fun s => s
|}.

(** The store of the README's test: one user, created directly. *)
Definition empty_world : World := mkWorld [] [] 0 0 1700000000000 [] [].

Definition existing_user_input : UserInput :=
  mkUserInput (Some "Existing User") (Some "test@example.com") (Some "password123").

Definition one_user_world : World :=
  snd (User_create (bc := fixture_bcrypt) existing_user_input empty_world).

Definition duplicate_request : UserInput :=
  mkUserInput (Some "Test User") (Some "test@example.com") (Some "password123").

(** The same email, with a password too short for the validation chain. *)
Definition duplicate_short_password : UserInput :=
  mkUserInput (Some "Test User") (Some "test@example.com") (Some "12345").

Definition unknown_login : LoginBody :=
  mkLoginBody "nobody@example.com" (VStr "password123").
Definition wrong_password_login : LoginBody :=
  mkLoginBody "test@example.com" (VStr "letmein").
Definition good_login : LoginBody := mkLoginBody "test@example.com" (VStr "password123").

(** Login requests that carry no password. *)
Definition unknown_login_no_password : LoginBody :=
  mkLoginBody "nobody@example.com" VUndefined.
Definition stored_login_no_password : LoginBody :=
  mkLoginBody "test@example.com" VUndefined.

(** Two passwords of 73 characters that differ in the last one only. *)
Definition long_password : string :=
  "correct-horse-battery-staple-correct-horse-battery-staple-correct-horse-A".
Definition other_long_password : string :=
  "correct-horse-battery-staple-correct-horse-battery-staple-correct-horse-B".

Definition long_password_input : UserInput :=
  mkUserInput (Some "Long Password") (Some "long@example.com") (Some long_password).

(** A name of three spaces, otherwise the README's test user. *)
Definition blank_name_input : UserInput :=
  mkUserInput (Some "   ") (Some "test@example.com") (Some "password123").

(** A name with spaces around it. *)
Definition padded_name_input : UserInput :=
  mkUserInput (Some "  Al  ") (Some "al@example.com") (Some "password123").

(** A chat message as a client sends it. *)
Definition hello_message : value :=
  VObj [("message", VStr "hi"); ("room", VStr "general"); ("sender", VStr "bob")].

(** The socket of a client that connected with [good.token]. *)
Definition authenticated_socket : option SocketData :=
  socketAuth (jwt := fixture_jwt) "s3cret" (Some "good.token")
    (mkSocketData "sock1" VUndefined VUndefined).

Definition sock1 : SocketData := mkSocketData "sock1" (VStr "u1") fixture_payload.

(** Three sockets, two of them in the room [general]. *)
Definition chat_adapter : Adapter :=
  join (join (mkAdapter {[ "sock1"; "sock2"; "sock3" ]} ∅) "sock1" (VStr "general"))
    "sock2" (VStr "general").

(** ** Predicates on the state *)

Section StoredPasswords.
Context {bc : Bcrypt}.

(** A string [bcrypt.hash(_, 10)] can return. *)
Definition is_bcrypt_hash (h : string) : Prop :=
  exists p salt, h = bcrypt_hash p 10 salt.

(** Every stored password is a hash. *)
Definition passwords_hashed (w : World) : Prop :=
  forall u, In u (users w) -> is_bcrypt_hash (u_password u).

(** A document whose password, if it is not marked modified, is a hash. *)
Definition tracked (d : UserDocument) : Prop :=
  d_passwordModified d = true
  \/ match d_password d with
     | Some h => is_bcrypt_hash h
     | None => True
     end.

End StoredPasswords.

(** Another stored user has this email. *)
Definition email_taken (email : string) (w : World) : Prop :=
  exists u, In u (users w) /\ u_email u = email.

(** The record a first save of [new User(i)] writes. *)
Definition saved_user {bc : Bcrypt} (id : nat) (i : UserInput) (w : World) : UserRecord :=
  mkUserRecord id (trim (to_s (in_name i))) (to_s (in_email i))
    (bcrypt_hash (to_s (in_password i)) 10 (rng w)) (now w) (now w).

(** The body passes the validation chain of [POST /register]. *)
Definition valid_registration {vd : Validator} (b : UserInput) : Prop :=
  (2 <= String.length (trim (to_s (in_name b))))%nat
  /\ isEmail (to_s (in_email b)) = true
  /\ (6 <= String.length (to_s (in_password b)))%nat.

(** No other stored user has this email. *)
Definition email_free (id : nat) (email : string) (w : World) : Prop :=
  forall u, In u (users w) -> u_id u <> id -> u_email u <> email.

(** What the schemas ask of the input of [new User] and [new Post]. *)
Definition user_input_ok (i : UserInput) : Prop :=
  trim (to_s (in_name i)) <> "" /\ to_s (in_email i) <> "" /\ to_s (in_password i) <> "".

Definition post_input_ok (i : PostInput) : Prop :=
  to_s (in_title i) <> "" /\ to_s (in_content i) <> "" /\ in_author i <> None.

Definition is_userOnline (l : listener) : bool :=
  match l with on_userOnline => true | _ => false end.

(** The listeners of the application that leave the socket as it is. *)
Fixpoint keeps_socket (l : listener) : bool :=
  match l with
  | on_userOnline | foreign _ => false
  | on_disconnect_presence (Some original) => keeps_socket original
  | _ => true
  end.

(** [socket.userId] after a run of events: what the last userOnline event
    carried, or [init] when there was none. *)
Fixpoint last_userOnline (init : value) (events : list (string * value)) : value :=
  match events with
  | [] => init
  | (event, arg) :: rest =>
      last_userOnline (if String.eqb "userOnline" event then arg else init) rest
  end.

(** What the disconnect listener of routes/socket.js broadcasts. *)
Definition presence_offline (s : SocketData) : list effect :=
  if truthy (userId s)
  then [Emit (SocketBroadcast (socket_id s)) "userStatusChanged"
          (status_changed (userId s) "offline")]
  else [].

(** ** middleware/admin.js *)

(** [v !== s] is the negation of this. *)
Definition strict_eq_str (v : value) (s : string) : bool :=
  match v with
  | VStr t => String.eqb t s
  | _ => false
  end.

(** [admin(req, res, next)]; [None]: reading [req.user.role] threw because
    [req.user] is [undefined]. *)
Definition admin (req : AuthReq) : option AuthOutcome :=
  match prop (user req) "role" with
  | None => None
  | Some role =>
      if strict_eq_str role "admin" then Some (mkAuthOutcome None true req)
      else Some (mkAuthOutcome
                   (Some (json_error 403 "Access denied. Admin role required."))
                   false req)
  end.

(** routes/admin.js: [router.use(auth); router.use(admin);] *)
Definition auth_then_admin {jwt : Jwt} (JWT_SECRET : string) (req : AuthReq)
  : option AuthOutcome :=
  let out := auth JWT_SECRET req in
  match sent out with
  | Some _ => Some out
  | None => admin (req_after out)
  end.

(** ** routes/posts.js, the reading routes *)

(** [GET /api/posts]: [Post.find().populate("author", "name email")] *)
Definition list_posts (w : World) : Response :=
  mkResponse 200 (VArr (map (fun r => post_json r w) (posts w))).

(** [GET /api/posts/:id]; [None] is a parameter that is no ObjectId, on
    which [findById] rejects with a CastError. *)
Definition get_post (id : option nat) (w : World) : Response :=
  match id with
  | None => json_error 500 "Server error"
  | Some n =>
      match find (fun r => Nat.eqb (p_id r) n) (posts w) with
      | None => json_error 404 "Post not found"
      | Some r => mkResponse 200 (post_json r w)
      end
  end.

(** ** The adapter under the effects of listeners *)

Definition apply_effect (a : Adapter) (e : effect) : Adapter :=
  match e with
  | Join sid room => join a sid room
  | _ => a
  end.

Definition apply_effects (a : Adapter) (es : list effect) : Adapter :=
  fold_left apply_effect es a.

(** ** Further predicates and examples *)

(** [pat] occurs in [s]. *)
Fixpoint occurs (pat s : string) : bool :=
  String.prefix pat s
  || match s with
     | EmptyString => false
     | String _ s' => occurs pat s'
     end.

(** No two stored users share an email. *)
Definition emails_unique (w : World) : Prop := List.NoDup (map u_email (users w)).

(** ObjectIds handed out so far are below the next one. *)
Definition ids_fresh (w : World) : Prop :=
  (forall u, In u (users w) -> (u_id u < next_id w)%nat)
  /\ (forall r, In r (posts w) -> (p_id r < next_id w)%nat).

(** The user a successful registration stores. *)
Definition registered_user {bc : Bcrypt} {vd : Validator} (b : UserInput) (w : World)
  : UserRecord :=
  mkUserRecord (next_id w) (trim (to_s (in_name b))) (normalizeEmail (to_s (in_email b)))
    (bcrypt_hash (to_s (in_password b)) 10 (rng w)) (now w) (now w).

(** The state a successful registration leaves. *)
Definition registered_world {bc : Bcrypt} {vd : Validator} (b : UserInput) (w : World)
  : World :=
  mkWorld (users w ++ [registered_user b w])%list (posts w) (S (next_id w)) (S (rng w))
    (now w)
    (CallSaveUser (next_id w) :: CallFindOneUser (normalizeEmail (to_s (in_email b)))
       :: calls w)
    (console w).

(** The state at another reading of the clock. *)
Definition at_time (t : Z) (w : World) : World :=
  mkWorld (users w) (posts w) (next_id w) (rng w) t (calls w) (console w).

(** The post [POST /api/posts] stores. *)
Definition created_post (title content : string) (author : nat) (w : World) : PostRecord :=
  mkPostRecord (next_id w) title content author (now w) (now w).

Definition created_world (title content : string) (author : nat) (w : World) : World :=
  with_posts (posts w ++ [created_post title content author w])%list
    (called (CallSavePost (next_id w)) (fresh_id w)).

(** Upper-case letters to lower case. *)
Definition lower_ascii (c : ascii) : ascii :=
  let n := nat_of_ascii c in
  if Nat.leb 65 n && Nat.leb n 90 then ascii_of_nat (n + 32) else c.

Fixpoint lower (s : string) : string :=
  match s with
  | EmptyString => EmptyString
  | String c s' => String (lower_ascii c) (lower s')
  end.

(** A stand-in for validator.js whose [normalizeEmail] lower-cases. *)
Definition lowering_validator : Validator := {|
  isEmail := fun s => existsb (Ascii.eqb "@") (list_ascii_of_string s);
  normalizeEmail := lower
|}.

(** A verifier whose tokens carry ObjectIds: [token7] is user 7's. *)
Definition oid_jwt : Jwt := {|
  jwt_sign := fun _ _ _ => Some "token7";
  jwt_verify := fun token secret =>
    if String.eqb token "token7" && String.eqb secret "s3cret"
    then Some (VObj [("id", VObjectId 7); ("iat", VNum 1700000000)]) else None
|}.

(** A [jsonwebtoken] whose [sign] throws, as it does when no secret is set. *)
Definition unsigned_jwt : Jwt := {|
  jwt_sign := fun _ _ _ => None;
  jwt_verify := fun _ _ => None
|}.

Definition mixed_case_request : UserInput :=
  mkUserInput (Some "Test User") (Some "Test@Example.com") (Some "password123").

(** * Theorems *)

Example auth_fixture_run :
  auth "s3cret" (mkAuthReq (Some "Bearer good.token") VUndefined)
  = mkAuthOutcome None true
      (mkAuthReq (Some "Bearer good.token") (VObj [("id", VStr "u1")])).
Proof. reflexivity. Qed.

(** ** The auth middleware *)

Section AuthFacts.
Context {jwt : Jwt}.
Variable JWT_SECRET : string.

Lemma deny_is_401 (req : AuthReq) (msg : string) :
  sent (deny req msg) = Some (json_error 401 msg)
  /\ next_called (deny req msg) = false
  /\ req_after (deny req msg) = req.
Proof. unfold deny; simpl; auto. Qed.

Lemma auth_no_token (req : AuthReq) :
  no_token (bearer_token req) = true ->
  auth JWT_SECRET req = deny req "No token, authorization denied".
Proof.
  unfold auth, no_token. destruct (bearer_token req) as [tok|]; [|reflexivity].
  intros ->. reflexivity.
Qed.

Lemma auth_with_token (req : AuthReq) (tok : string) :
  bearer_token req = Some tok -> String.eqb tok "" = false ->
  auth JWT_SECRET req =
    match jwt_verify tok JWT_SECRET with
    | None => deny req "Token is not valid"
    | Some decoded =>
        match prop decoded "id" with
        | None => deny req "Token is not valid"
        | Some id => mkAuthOutcome None true (mkAuthReq (authorization req) (VObj [("id", id)]))
        end
    end.
Proof. unfold auth. intros -> ->. reflexivity. Qed.

End AuthFacts.

(** A request the middleware turns away never reaches the route's handler. *)
Lemma guarded_denied {jwt : Jwt} {S : Type} (secret : string)
    (handler : AuthReq -> S -> Response * S) (req : AuthReq) (st : S) (r : Response) :
  sent (auth secret req) = Some r -> guarded secret handler req st = (r, st).
Proof. unfold guarded. intros ->. reflexivity. Qed.

Example posts_create_without_token :
  posts_create (jwt := fixture_jwt) "s3cret" (Some "Hello") (Some "First post")
    (mkAuthReq None VUndefined) one_user_world
  = (json_error 401 "No token, authorization denied", one_user_world).
Proof. reflexivity. Qed.

(** C1, as amended: when the Authorization header is absent, or empty once
    the first "Bearer " is removed, or what is left fails verification
    against JWT_SECRET (or decodes to nothing an [id] can be read from),
    the middleware answers 401 with a JSON error, leaves the request as it
    was and does not call [next()], so the handler of a guarded route does
    not run; otherwise it sets [req.user] to [{ id: decoded.id }], sends
    nothing and calls [next()]. *)
Theorem auth_middleware_outcome {jwt : Jwt} (secret : string) (req : AuthReq) :
  let out := auth secret req in
  ((no_token (bearer_token req) = true
    \/ (exists tok, bearer_token req = Some tok /\ jwt_verify tok secret = None)
    \/ (exists tok decoded, bearer_token req = Some tok
          /\ jwt_verify tok secret = Some decoded /\ prop decoded "id" = None)) ->
   exists msg, sent out = Some (json_error 401 msg)
               /\ next_called out = false /\ req_after out = req
               /\ forall (S : Type) (handler : AuthReq -> S -> Response * S) (st : S),
                    guarded secret handler req st = (json_error 401 msg, st))
  /\
  (forall tok decoded id,
     bearer_token req = Some tok -> String.eqb tok "" = false ->
     jwt_verify tok secret = Some decoded -> prop decoded "id" = Some id ->
     sent out = None /\ next_called out = true
     /\ user (req_after out) = VObj [("id", id)]
     /\ authorization (req_after out) = authorization req).
Proof.
  cbv zeta. split.
  - intros Hcase.
    assert (Hdeny : exists msg, auth secret req = deny req msg).
    { destruct (no_token (bearer_token req)) eqn:Hno.
      - rewrite (auth_no_token secret req Hno). eexists; reflexivity.
      - destruct (bearer_token req) as [tok|] eqn:Htok; [|discriminate Hno].
        simpl in Hno. rewrite (auth_with_token secret req tok Htok Hno).
        destruct Hcase as [Hc | [(t & Ht & Hv) | (t & d & Ht & Hv & Hp)]].
        + discriminate Hc.
        + injection Ht as <-. rewrite Hv. eexists; reflexivity.
        + injection Ht as <-. rewrite Hv, Hp. eexists; reflexivity. }
    destruct Hdeny as [msg Hdeny]. exists msg. rewrite Hdeny.
    repeat split. intros S handler st. apply guarded_denied. rewrite Hdeny. reflexivity.
  - intros tok decoded id Htok Hne Hv Hp.
    rewrite (auth_with_token secret req tok Htok Hne), Hv, Hp. simpl. auto.
Qed.

Lemma auth_middleware_outcome_witness :
  let req := mkAuthReq (Some "Bearer good.token") VUndefined in
  let out := auth (jwt := fixture_jwt) "s3cret" req in
  sent out = None /\ next_called out = true
  /\ user (req_after out) = VObj [("id", VStr "u1")]
  /\ authorization (req_after out) = authorization req.
Proof.
  cbv zeta.
  apply (proj2 (auth_middleware_outcome (jwt := fixture_jwt) "s3cret"
                  (mkAuthReq (Some "Bearer good.token") VUndefined))
           "good.token" fixture_payload (VStr "u1"));
    reflexivity.
Defined.

(** C1 as stated fails: a token signed by [jwt.sign({ id }, secret)]
    decodes to a payload with [id] and [iat]; the middleware passes it, and
    [req.user] is [{ id: "u1" }], which is not the decoded payload. *)
Lemma auth_attaches_id_not_payload :
  let req := mkAuthReq (Some "Bearer good.token") VUndefined in
  jwt_verify (Jwt := fixture_jwt) "good.token" "s3cret" = Some fixture_payload
  /\ next_called (auth (jwt := fixture_jwt) "s3cret" req) = true
  /\ user (req_after (auth (jwt := fixture_jwt) "s3cret" req)) = VObj [("id", VStr "u1")]
  /\ user (req_after (auth (jwt := fixture_jwt) "s3cret" req)) <> fixture_payload.
Proof. cbv zeta. repeat split. discriminate. Qed.

(** ** The error handler *)

Lemma js_or_truthy (a b : value) : truthy b = true -> truthy (js_or a b) = true.
Proof. unfold js_or. destruct (truthy a) eqn:Ha; auto. Qed.

Lemma errorHandler_is_table (err : JsError) : errorHandler err = errorHandler_table err.
Proof.
  unfold errorHandler, errorHandler_table.
  destruct (String.eqb (err_name err) "ValidationError") eqn:Hval.
  - destruct (String.eqb (err_name err) "CastError"),
             (strict_eq_num (err_code err) 11000);
      destruct (validation_messages (err_errors err)); reflexivity.
  - destruct (strict_eq_num (err_code err) 11000);
      [| destruct (String.eqb (err_name err) "CastError")]; reflexivity.
Qed.

(** An error with a status code Node refuses: the handler throws and sends
    nothing; and one with the status 204, which goes out without a body. *)
Example errorHandler_status_out_of_range :
  errorHandler (mkJsError "Error" (VStr "Teapot") VUndefined (Some 99) VUndefined) = None
  /\ errorHandler (mkJsError "Error" (VStr "Gone") VUndefined (Some 204) VUndefined)
     = Some (mkResponse 204 VUndefined).
Proof. split; reflexivity. Qed.

(** C2, as amended: the handler answers by the decision table
    [errorHandler_table]: a ValidationError gets 400 with the list of its
    messages; failing that, code 11000 gets 400 "Duplicate field value
    entered"; failing that, a CastError gets 404; any other error gets its
    own [statusCode] when it has a non-zero one and 500 otherwise: no
    response at all when that status lies outside 100..999, the status
    without a body when it is 1xx, 204, 205 or 304, and else the status
    with [{ success: false, error }], the error's message or "Server
    Error".  When the handler responds, the status lies in 100..999 and
    the body is [{ success: false, error }] with a truthy [error] unless
    the status is a bodiless one; it responds unless the error is a
    ValidationError whose [errors] cannot be listed or an error of the
    last kind whose status is out of range. *)
Theorem errorHandler_decision_table (err : JsError) :
  errorHandler err = errorHandler_table err
  /\ (err_name err = "ValidationError" ->
      errorHandler err
      = option_map (fun msgs => mkResponse 400 (failure_body (VArr msgs)))
          (validation_messages (err_errors err)))
  /\ (err_name err <> "ValidationError" -> strict_eq_num (err_code err) 11000 = true ->
      errorHandler err
      = Some (mkResponse 400 (failure_body (VStr "Duplicate field value entered"))))
  /\ (err_name err = "CastError" -> strict_eq_num (err_code err) 11000 = false ->
      errorHandler err = Some (mkResponse 404 (failure_body (VStr "Resource not found"))))
  /\ (err_name err <> "ValidationError" -> err_name err <> "CastError" ->
      strict_eq_num (err_code err) 11000 = false ->
      errorHandler err
      = if Z.leb 100 (status_or (err_statusCode err) 500)
           && Z.leb (status_or (err_statusCode err) 500) 999
        then Some (mkResponse (status_or (err_statusCode err) 500)
                     (if bodiless (status_or (err_statusCode err) 500) then VUndefined
                      else failure_body (js_or (err_message err) (VStr "Server Error"))))
        else None)
  /\ match errorHandler err with
     | Some r =>
         100 <= status r <= 999
         /\ (bodiless (status r) = false ->
             exists m, body r = failure_body m /\ truthy m = true)
         /\ (bodiless (status r) = true ->
             body r = VUndefined /\ status r = status_or (err_statusCode err) 500)
     | None =>
         (err_name err = "ValidationError"
          /\ validation_messages (err_errors err) = None)
         \/ (err_name err <> "ValidationError" /\ err_name err <> "CastError"
             /\ strict_eq_num (err_code err) 11000 = false
             /\ ~ 100 <= status_or (err_statusCode err) 500 <= 999)
     end.
Proof.
  rewrite errorHandler_is_table. unfold errorHandler_table.
  split; [reflexivity |]. split; [| split; [| split; [| split]]].
  - intros ->. reflexivity.
  - intros Hval ->. apply String.eqb_neq in Hval. rewrite Hval. reflexivity.
  - intros Hcast ->. rewrite Hcast. reflexivity.
  - intros Hval Hcast ->. apply String.eqb_neq in Hval, Hcast.
    rewrite Hval, Hcast. reflexivity.
  - destruct (String.eqb (err_name err) "ValidationError") eqn:Hval.
    + apply String.eqb_eq in Hval.
      destruct (validation_messages (err_errors err)) as [msgs|]; simpl.
      * split; [lia |]. split; [| discriminate].
        intros _. exists (VArr msgs). split; reflexivity.
      * left. split; [exact Hval | reflexivity].
    + apply String.eqb_neq in Hval.
      destruct (strict_eq_num (err_code err) 11000) eqn:Hcode.
      { simpl. split; [lia |]. split; [| discriminate].
        intros _. eexists. split; reflexivity. }
      destruct (String.eqb (err_name err) "CastError") eqn:Hcast.
      { simpl. split; [lia |]. split; [| discriminate].
        intros _. eexists. split; reflexivity. }
      apply String.eqb_neq in Hcast. unfold send_json.
      destruct (Z.leb_spec 100 (status_or (err_statusCode err) 500)) as [Hlo|Hlo];
        destruct (Z.leb_spec (status_or (err_statusCode err) 500) 999) as [Hhi|Hhi];
        simpl; try (right; repeat split; auto; lia).
      split; [lia |]. split; intros Hb; rewrite Hb.
      * eexists. split; [reflexivity |]. apply js_or_truthy. reflexivity.
      * split; reflexivity.
Qed.

Lemma errorHandler_decision_table_witness :
  errorHandler forbidden_error = Some (mkResponse 403 (failure_body (VStr "Forbidden")))
  /\ errorHandler cast_and_duplicate_error
     = Some (mkResponse 400 (failure_body (VStr "Duplicate field value entered")))
  /\ errorHandler (mkJsError "CastError" (VStr "Test error") VUndefined None VUndefined)
     = Some (mkResponse 404 (failure_body (VStr "Resource not found"))).
Proof.
  split; [| split].
  - apply (proj1 (proj2 (proj2 (proj2 (proj2
             (errorHandler_decision_table forbidden_error))))));
      [discriminate | discriminate | reflexivity].
  - apply (proj1 (proj2 (proj2 (errorHandler_decision_table cast_and_duplicate_error))));
      [discriminate | reflexivity].
  - apply (proj1 (proj2 (proj2 (proj2
             (errorHandler_decision_table
                (mkJsError "CastError" (VStr "Test error") VUndefined None VUndefined))))));
      reflexivity.
Defined.

(** C2 as stated fails twice over: an error that is none of the three
    named ones but carries its own [statusCode] is answered with that
    status, not 500; and a CastError that also has code 11000 is answered
    400, not 404. *)
Lemma errorHandler_not_always_500_or_404 :
  (err_name forbidden_error <> "CastError"
   /\ err_name forbidden_error <> "ValidationError"
   /\ strict_eq_num (err_code forbidden_error) 11000 = false
   /\ errorHandler forbidden_error
      = Some (mkResponse 403 (failure_body (VStr "Forbidden"))))
  /\ (err_name cast_and_duplicate_error = "CastError"
      /\ errorHandler cast_and_duplicate_error
         = Some (mkResponse 400 (failure_body (VStr "Duplicate field value entered")))).
Proof. repeat split; discriminate. Qed.

Example test_error_route_is_404 :
  test_error_route = Some (mkResponse 404 (failure_body (VStr "Resource not found"))).
Proof. reflexivity. Qed.

(** ** Registration and login *)

Example one_user_world_users :
  users one_user_world
  = [mkUserRecord 0 "Existing User" "test@example.com" "$2a$password123"
       1700000000000 1700000000000].
Proof. reflexivity. Qed.

(** The README's first test: registering into an empty store. *)
Example register_new_user_201 :
  register (jwt := fixture_jwt) (bc := fixture_bcrypt) (vd := fixture_validator)
    "s3cret" duplicate_request empty_world
  = (mkResponse 201
       (VObj [("token", VStr "good.token");
              ("user", VObj [("id", VObjectId 0); ("name", VStr "Test User");
                             ("email", VStr "test@example.com")])]),
     mkWorld [mkUserRecord 0 "Test User" "test@example.com" "$2a$password123"
                1700000000000 1700000000000]
       [] 1 1 1700000000000 [CallSaveUser 0; CallFindOneUser "test@example.com"] []).
Proof. reflexivity. Qed.

Lemma find_email_taken (email : string) (us : list UserRecord) :
  (exists u, In u us /\ u_email u = email) ->
  exists u, find (fun u => String.eqb (u_email u) email) us = Some u.
Proof.
  intros (u & Hin & He).
  destruct (find (fun u => String.eqb (u_email u) email) us) as [v|] eqn:Hf.
  - exists v. reflexivity.
  - exfalso. pose proof (find_none _ _ Hf u Hin) as Hn. simpl in Hn.
    rewrite He, String.eqb_refl in Hn. discriminate.
Qed.

Section RegisterFacts.
Context {jwt : Jwt} {bc : Bcrypt} {vd : Validator}.
Variable JWT_SECRET : string.

Lemma register_chain_errors (b : UserInput) :
  (String.length (trim (to_s (in_name b))) < 2)%nat
  \/ isEmail (to_s (in_email b)) = false
  \/ (String.length (to_s (in_password b)) < 6)%nat
  <-> fst (register_chain b) <> [].
Proof.
  unfold register_chain; simpl.
  destruct (Nat.ltb_spec (String.length (trim (to_s (in_name b)))) 2) as [Hn|Hn];
  destruct (isEmail (to_s (in_email b))) eqn:He;
  destruct (Nat.ltb_spec (String.length (to_s (in_password b))) 6) as [Hp|Hp];
  simpl; split; intros H; try discriminate; auto; try congruence.
  destruct H as [H | [H | H]]; try discriminate; lia.
Qed.

Lemma register_chain_valid (b : UserInput) :
  valid_registration b <-> fst (register_chain b) = [].
Proof.
  unfold valid_registration, register_chain; simpl.
  destruct (Nat.ltb_spec (String.length (trim (to_s (in_name b)))) 2) as [Hn|Hn];
  destruct (isEmail (to_s (in_email b))) eqn:He;
  destruct (Nat.ltb_spec (String.length (to_s (in_password b))) 6) as [Hp|Hp];
  simpl; split; intros H; try discriminate; auto;
    try (destruct H as (H1 & H2 & H3); try discriminate; lia).
Qed.

Lemma register_invalid (b : UserInput) (w : World) :
  fst (register_chain b) <> [] ->
  register JWT_SECRET b w
  = (mkResponse 400 (VObj [("errors", VArr (map error_entry (fst (register_chain b))))]), w).
Proof.
  unfold register. destruct (register_chain b) as [errors body]; simpl.
  destruct errors; [congruence | reflexivity].
Qed.

Lemma register_valid_taken (b : UserInput) (w : World) :
  fst (register_chain b) = [] ->
  email_taken (normalizeEmail (to_s (in_email b))) w ->
  register JWT_SECRET b w
  = (json_error 400 "User already exists",
     called (CallFindOneUser (normalizeEmail (to_s (in_email b)))) w).
Proof.
  intros Hok Htaken. unfold register.
  destruct (register_chain b) as [errors body] eqn:Hc. simpl in Hok. subst errors.
  assert (Hb : to_s (in_email body) = normalizeEmail (to_s (in_email b))).
  { unfold register_chain in Hc. injection Hc as _ <-. reflexivity. }
  rewrite Hb. unfold User_findOne.
  destruct (find_email_taken _ _ Htaken) as [u ->]. reflexivity.
Qed.

End RegisterFacts.

(** C8: a registration body that fails validation (name shorter than 2
    characters once trimmed, email that is no email, or password shorter
    than 6 characters) is answered 400 with a non-empty [errors] array,
    and the state is left exactly as it was: no database call is recorded
    and no user is added. *)
Theorem register_invalid_input_400 {jwt : Jwt} {bc : Bcrypt} {vd : Validator}
    (secret : string) (b : UserInput) (w : World) :
  ((String.length (trim (to_s (in_name b))) < 2)%nat
   \/ isEmail (to_s (in_email b)) = false
   \/ (String.length (to_s (in_password b)) < 6)%nat) ->
  exists errors,
    errors <> []
    /\ register secret b w
       = (mkResponse 400 (VObj [("errors", VArr (map error_entry errors))]), w)
    /\ calls (snd (register secret b w)) = calls w
    /\ users (snd (register secret b w)) = users w.
Proof.
  intros Hbad. apply register_chain_errors in Hbad.
  exists (fst (register_chain b)).
  rewrite (register_invalid secret b w Hbad). auto.
Qed.

Lemma register_invalid_input_400_witness :
  exists errors,
    errors <> []
    /\ register (jwt := fixture_jwt) (bc := fixture_bcrypt) (vd := fixture_validator)
         "s3cret" duplicate_short_password one_user_world
       = (mkResponse 400 (VObj [("errors", VArr (map error_entry errors))]), one_user_world)
    /\ calls (snd (register (jwt := fixture_jwt) (bc := fixture_bcrypt)
                     (vd := fixture_validator) "s3cret" duplicate_short_password
                     one_user_world))
       = calls one_user_world
    /\ users (snd (register (jwt := fixture_jwt) (bc := fixture_bcrypt)
                     (vd := fixture_validator) "s3cret" duplicate_short_password
                     one_user_world))
       = users one_user_world.
Proof.
  apply (register_invalid_input_400 (jwt := fixture_jwt) (bc := fixture_bcrypt)
           (vd := fixture_validator) "s3cret" duplicate_short_password one_user_world).
  right; right. simpl. lia.
Defined.

(** C3, as amended: a registration request that passes validation and
    whose normalized email is the email of a stored user is answered 400
    with [{ error: "User already exists" }]; the lookup is the only thing
    recorded, and the users are as before. *)
Theorem register_existing_email_400 {jwt : Jwt} {bc : Bcrypt} {vd : Validator}
    (secret : string) (b : UserInput) (w : World) :
  valid_registration b ->
  email_taken (normalizeEmail (to_s (in_email b))) w ->
  fst (register secret b w) = json_error 400 "User already exists"
  /\ users (snd (register secret b w)) = users w
  /\ calls (snd (register secret b w))
     = CallFindOneUser (normalizeEmail (to_s (in_email b))) :: calls w.
Proof.
  intros Hok Htaken. apply register_chain_valid in Hok.
  rewrite (register_valid_taken secret b w Hok Htaken). auto.
Qed.

Lemma email_taken_one_user_world : email_taken "test@example.com" one_user_world.
Proof. eexists. split; [left; reflexivity | reflexivity]. Defined.

Lemma register_existing_email_400_witness :
  fst (register (jwt := fixture_jwt) (bc := fixture_bcrypt) (vd := fixture_validator)
         "s3cret" duplicate_request one_user_world)
  = json_error 400 "User already exists"
  /\ users (snd (register (jwt := fixture_jwt) (bc := fixture_bcrypt)
                   (vd := fixture_validator) "s3cret" duplicate_request one_user_world))
     = users one_user_world
  /\ calls (snd (register (jwt := fixture_jwt) (bc := fixture_bcrypt)
                   (vd := fixture_validator) "s3cret" duplicate_request one_user_world))
     = CallFindOneUser "test@example.com" :: calls one_user_world.
Proof.
  apply (register_existing_email_400 (jwt := fixture_jwt) (bc := fixture_bcrypt)
           (vd := fixture_validator) "s3cret" duplicate_request one_user_world).
  - unfold valid_registration; simpl. repeat split; lia.
  - exact email_taken_one_user_world.
Defined.

(** C3 as stated fails: the email of the request is the email of the
    stored user, yet the password is too short, so whatever the libraries
    do the answer is 400 with an [errors] array, not
    [{ error: "User already exists" }]. *)
Lemma register_existing_email_invalid_body :
  email_taken (to_s (in_email duplicate_short_password)) one_user_world
  /\ (forall (jwt : Jwt) (bc : Bcrypt) (vd : Validator) (secret : string),
        exists errors,
          fst (register secret duplicate_short_password one_user_world)
          = mkResponse 400 (VObj [("errors", VArr errors)])
          /\ fst (register secret duplicate_short_password one_user_world)
             <> json_error 400 "User already exists").
Proof.
  split; [exact email_taken_one_user_world |].
  intros jwt bc vd secret.
  assert (Hbad : fst (register_chain duplicate_short_password) <> []).
  { apply register_chain_errors. right; right. simpl. lia. }
  rewrite (register_invalid secret _ one_user_world Hbad). simpl.
  eexists. split; [reflexivity | discriminate].
Qed.

Example good_login_200 :
  fst (login (jwt := fixture_jwt) (bc := fixture_bcrypt) "s3cret" good_login one_user_world)
  = mkResponse 200
      (VObj [("token", VStr "good.token");
             ("user", VObj [("id", VObjectId 0); ("name", VStr "Existing User");
                            ("email", VStr "test@example.com")])]).
Proof. reflexivity. Qed.

(** C9, as amended: a login whose email matches no stored user is
    answered 400 with [{ error: "Invalid credentials" }], whatever its
    password; a login whose email matches a user gets that same response
    when its password is a string that [bcrypt.compare] does not accept
    for the stored hash, but 500 with [{ error: "Server error" }], another
    response, when its password is missing or is not a string. *)
Theorem login_failures_same_response {jwt : Jwt} {bc : Bcrypt}
    (secret : string) (b1 b2 : LoginBody) (w1 w2 : World) (u : UserDocument) :
  fst (User_findOne (login_email b1) w1) = None ->
  fst (User_findOne (login_email b2) w2) = Some u ->
  fst (login secret b1 w1) = json_error 400 "Invalid credentials"
  /\ (exists h, d_password u = Some h
                /\ forall c, comparePassword u (VStr c) = Some (bcrypt_compare c h))
  /\ (comparePassword u (login_password b2) = Some false ->
      fst (login secret b2 w2) = json_error 400 "Invalid credentials"
      /\ fst (login secret b1 w1) = fst (login secret b2 w2))
  /\ ((forall c, login_password b2 <> VStr c) ->
      fst (login secret b2 w2) = json_error 500 "Server error"
      /\ fst (login secret b1 w1) <> fst (login secret b2 w2)).
Proof.
  intros Hnone Hsome.
  assert (H1 : fst (login secret b1 w1) = json_error 400 "Invalid credentials").
  { unfold login, User_findOne in *. simpl in *. rewrite Hnone. reflexivity. }
  assert (Hpw : exists h, d_password u = Some h).
  { unfold User_findOne in Hsome. simpl in Hsome.
    destruct (find _ (users w2)) as [r|]; [| discriminate].
    injection Hsome as <-. eexists. reflexivity. }
  destruct Hpw as [h Hh].
  split; [exact H1 |]. split; [| split].
  - exists h. split; [exact Hh |]. intros c. unfold comparePassword. rewrite Hh. reflexivity.
  - intros Hcmp.
    assert (H2 : fst (login secret b2 w2) = json_error 400 "Invalid credentials").
    { unfold login, User_findOne in *. simpl in *. rewrite Hsome, Hcmp. reflexivity. }
    rewrite H1, H2. auto.
  - intros Hnot.
    assert (Hcmp : comparePassword u (login_password b2) = None).
    { unfold comparePassword. destruct (login_password b2) as [| | | |c| | | |];
        try reflexivity. destruct (Hnot c eq_refl). }
    assert (H2 : fst (login secret b2 w2) = json_error 500 "Server error").
    { unfold login, User_findOne in *. simpl in *. rewrite Hsome, Hcmp. reflexivity. }
    rewrite H1, H2. split; [reflexivity | discriminate].
Qed.

Lemma login_failures_same_response_witness :
  fst (login (jwt := fixture_jwt) (bc := fixture_bcrypt) "s3cret" unknown_login
         one_user_world)
  = json_error 400 "Invalid credentials"
  /\ fst (login (jwt := fixture_jwt) (bc := fixture_bcrypt) "s3cret" wrong_password_login
            one_user_world)
     = json_error 400 "Invalid credentials"
  /\ fst (login (jwt := fixture_jwt) (bc := fixture_bcrypt) "s3cret" unknown_login
            one_user_world)
     = fst (login (jwt := fixture_jwt) (bc := fixture_bcrypt) "s3cret" wrong_password_login
              one_user_world).
Proof.
  destruct (login_failures_same_response (jwt := fixture_jwt) (bc := fixture_bcrypt)
              "s3cret" unknown_login wrong_password_login one_user_world one_user_world
              (document_of (mkUserRecord 0 "Existing User" "test@example.com"
                              "$2a$password123" 1700000000000 1700000000000))
              eq_refl eq_refl)
    as (H1 & _ & H2 & _).
  destruct (H2 eq_refl) as [H2a H2b].
  split; [exact H1 |]. split; [exact H2a | exact H2b].
Defined.

(** C9 as stated fails: of two login requests that carry no password,
    the one with the email of a stored user is answered 500 "Server
    error" and the one with an unknown email 400 "Invalid credentials",
    whatever the libraries do; the responses tell the two causes apart. *)
Lemma login_without_password_tells_stored_email :
  email_taken (login_email stored_login_no_password) one_user_world
  /\ ~ email_taken (login_email unknown_login_no_password) one_user_world
  /\ (forall (jwt : Jwt) (bc : Bcrypt) (secret : string),
        fst (login secret unknown_login_no_password one_user_world)
        = json_error 400 "Invalid credentials"
        /\ fst (login secret stored_login_no_password one_user_world)
           = json_error 500 "Server error"
        /\ fst (login secret unknown_login_no_password one_user_world)
           <> fst (login secret stored_login_no_password one_user_world)).
Proof.
  split; [exact email_taken_one_user_world |]. split.
  - intros (u & [<- | []] & He). discriminate He.
  - intros jwt bc secret.
    assert (H1 : fst (login secret unknown_login_no_password one_user_world)
                 = json_error 400 "Invalid credentials") by reflexivity.
    assert (H2 : fst (login secret stored_login_no_password one_user_world)
                 = json_error 500 "Server error") by reflexivity.
    rewrite H1, H2. repeat split. discriminate.
Qed.

(** ** Stored passwords *)

Lemma length_append (s t : string) :
  String.length (String.append s t) = (String.length s + String.length t)%nat.
Proof.
  induction s as [|c s IH]; [reflexivity |].
  change (String.append (String c s) t) with (String c (String.append s t)).
  simpl. rewrite IH. reflexivity.
Qed.

Lemma append_cons (a : ascii) (s t : string) :
  String.append (String a s) t = String a (String.append s t).
Proof. reflexivity. Qed.

Lemma fixture_marker_key (p : string) : fixture_marker (bcrypt_key p) = fixture_marker p.
Proof. destruct p; reflexivity. Qed.

Lemma fixture_hash_differs (p : string) : fixture_hash p <> p.
Proof.
  unfold fixture_hash. destruct p as [|c p]; [discriminate |].
  unfold fixture_marker. destruct (Ascii.eqb c "$") eqn:Hc.
  - apply Ascii.eqb_eq in Hc. subst c. rewrite append_cons. discriminate.
  - rewrite append_cons. intros H. injection H as H _. subst c. discriminate Hc.
Qed.

Lemma fixture_bcrypt_laws : BcryptLaws fixture_bcrypt.
Proof.
  split; simpl.
  - intros c p _ _ Hkey. unfold fixture_hash.
    rewrite <- (fixture_marker_key c), <- (fixture_marker_key p), Hkey.
    apply String.eqb_refl.
  - intros p _ _. apply fixture_hash_differs.
Qed.

Lemma In_replace_user (r u : UserRecord) (us : list UserRecord) :
  In u (replace_user r us) -> u = r \/ In u us.
Proof.
  induction us as [|v rest IH]; simpl; [tauto |].
  destruct (Nat.eqb (u_id v) (u_id r)); simpl; intros [H | H]; auto.
  destruct (IH H); auto.
Qed.

Lemma replace_user_In (r : UserRecord) (us : list UserRecord) :
  existsb (fun u => Nat.eqb (u_id u) (u_id r)) us = true -> In r (replace_user r us).
Proof.
  induction us as [|v rest IH]; simpl; [discriminate |].
  destruct (Nat.eqb (u_id v) (u_id r)); simpl; auto.
Qed.

Section SaveFacts.
Context {bc : Bcrypt}.

Lemma pre_save_unmodified (d : UserDocument) (salt : nat) :
  d_passwordModified d = false -> pre_save d salt = Some d.
Proof. unfold pre_save. intros ->. reflexivity. Qed.

Lemma pre_save_modified (d : UserDocument) (salt : nat) (p : string) :
  d_passwordModified d = true -> d_password d = Some p ->
  pre_save d salt
  = Some (mkUserDocument (d_id d) (d_name d) (d_email d) (Some (bcrypt_hash p 10 salt))
            (d_createdAt d) (d_isNew d) true).
Proof. unfold pre_save. intros -> ->. reflexivity. Qed.

(** What a successful save wrote. *)
Lemma User_save_inr (d saved : UserDocument) (w w' : World) :
  User_save d w = (inr saved, w') ->
  exists r,
    saved = document_of r /\ In r (users w') /\ u_id r = d_id d
    /\ (forall u, In u (users w') -> u = r \/ In u (users w))
    /\ Some (u_password r)
       = (if d_passwordModified d
          then option_map (fun p => bcrypt_hash p 10 (rng w)) (d_password d)
          else d_password d).
Proof.
  unfold User_save.
  destruct (validate userSchema (user_fields d)); [| discriminate].
  unfold pre_save. destruct (d_passwordModified d) eqn:Hm; simpl.
  - destruct (d_password d) as [p|]; [| discriminate]. simpl.
    destruct (d_name d) as [n|]; [| discriminate].
    destruct (d_email d) as [e|]; [| discriminate].
    match goal with |- context [duplicate_key ?a ?b] => destruct (duplicate_key a b) end;
      [discriminate |]. simpl.
    destruct (d_isNew d).
    + intros H. injection H as <- <-. eexists. split; [reflexivity |]. simpl.
      repeat split; auto.
      * apply in_or_app. right. left. reflexivity.
      * intros u Hu. apply in_app_or in Hu. destruct Hu as [Hu | [Hu | []]]; auto.
    + match goal with |- context [existsb ?f ?l] => destruct (existsb f l) eqn:Hex end;
        [| discriminate].
      intros H. injection H as <- <-. eexists. split; [reflexivity |]. simpl.
      repeat split; auto.
      * apply replace_user_In. exact Hex.
      * intros u Hu. apply In_replace_user in Hu. exact Hu.
  - destruct (d_name d) as [n|]; [| discriminate].
    destruct (d_email d) as [e|]; [| discriminate].
    destruct (d_password d) as [p|]; [| discriminate].
    match goal with |- context [duplicate_key ?a ?b] => destruct (duplicate_key a b) end;
      [discriminate |]. simpl.
    destruct (d_isNew d).
    + intros H. injection H as <- <-. eexists. split; [reflexivity |]. simpl.
      repeat split; auto.
      * apply in_or_app. right. left. reflexivity.
      * intros u Hu. apply in_app_or in Hu. destruct Hu as [Hu | [Hu | []]]; auto.
    + match goal with |- context [existsb ?f ?l] => destruct (existsb f l) eqn:Hex end;
        [| discriminate].
      intros H. injection H as <- <-. eexists. split; [reflexivity |]. simpl.
      repeat split; auto.
      * apply replace_user_In. exact Hex.
      * intros u Hu. apply In_replace_user in Hu. exact Hu.
Qed.

(** A save that fails leaves the users alone. *)
Lemma User_save_inl (d : UserDocument) (e : JsError) (w w' : World) :
  User_save d w = (inl e, w') -> users w' = users w.
Proof.
  unfold User_save.
  destruct (validate userSchema (user_fields d)).
  2:{ intros H. injection H as _ <-. reflexivity. }
  destruct (pre_save d (rng (called (CallSaveUser (d_id d)) w))) as [d1|].
  2:{ intros H. injection H as _ <-. reflexivity. }
  destruct (d_name d1), (d_email d1), (d_password d1);
    try (intros H; injection H as _ <-; destruct (d_passwordModified d); reflexivity).
  destruct (duplicate_key d1 _).
  { intros H; injection H as _ <-; destruct (d_passwordModified d); reflexivity. }
  destruct (d_isNew d1); [discriminate |].
  destruct (existsb _ _); [discriminate |].
  intros H; injection H as _ <-; destruct (d_passwordModified d); reflexivity.
Qed.

End SaveFacts.

Section TrackedDocuments.
Context {bc : Bcrypt}.

Lemma tracked_new_User (id : nat) (i : UserInput) : tracked (new_User id i).
Proof.
  unfold tracked, new_User; simpl.
  destruct (in_password i); simpl; [left; reflexivity | right; exact I].
Qed.

Lemma tracked_found (email : string) (w : World) (d : UserDocument) :
  passwords_hashed w -> fst (User_findOne email w) = Some d -> tracked d.
Proof.
  unfold User_findOne; simpl. intros Hw Hf.
  destruct (find _ (users w)) as [u|] eqn:Hfind; [| discriminate].
  injection Hf as <-. right. simpl. apply Hw. exact (proj1 (find_some _ _ Hfind)).
Qed.

Lemma tracked_set_name (v : string) (d : UserDocument) : tracked d -> tracked (set_name v d).
Proof. unfold tracked, set_name; simpl. auto. Qed.

Lemma tracked_set_email (v : string) (d : UserDocument) : tracked d -> tracked (set_email v d).
Proof. unfold tracked, set_email; simpl. auto. Qed.

Lemma tracked_set_password (v : string) (d : UserDocument) :
  tracked d -> tracked (set_password v d).
Proof.
  unfold tracked, set_password; simpl. intros [Hm | Hh].
  - left. rewrite Hm. reflexivity.
  - destruct (d_passwordModified d); [left; reflexivity |]. simpl.
    destruct (d_password d) as [h|]; simpl.
    + destruct (String.eqb h v) eqn:He; [| left; reflexivity].
      apply String.eqb_eq in He. subst v. right. exact Hh.
    + left. reflexivity.
Qed.

(** Saving a tracked document keeps every stored password a hash. *)
Lemma User_save_keeps_hashed (d : UserDocument) (w w' : World)
    (res : JsError + UserDocument) :
  passwords_hashed w -> tracked d -> User_save d w = (res, w') -> passwords_hashed w'.
Proof.
  intros Hw Hd Hs. destruct res as [e | saved].
  - unfold passwords_hashed. rewrite (User_save_inl d e w w' Hs). exact Hw.
  - destruct (User_save_inr d saved w w' Hs) as (r & _ & _ & _ & Hold & Hpw).
    intros u Hu. destruct (Hold u Hu) as [-> | Hin]; [| exact (Hw u Hin)].
    destruct (d_passwordModified d) eqn:Hm.
    + destruct (d_password d) as [p|]; [| discriminate].
      injection Hpw as ->. exists p, (rng w). reflexivity.
    + destruct Hd as [Hd | Hd]; [congruence |].
      rewrite <- Hpw in Hd. exact Hd.
Qed.

End TrackedDocuments.

(** C4, as amended: the pre-save hook leaves an unmodified password alone
    and replaces a modified one by its bcrypt hash at 10 rounds; a save of
    a document whose password [p] was modified stores that hash, which is
    not [p]; [comparePassword] on the saved document answers what
    [bcrypt.compare] answers for the candidate and that hash, which is
    true for [p] and for every candidate with the first 72 characters of
    [p], and it rejects a candidate that is not a string; and saving
    documents made by [new User], found by [findOne] or assigned to keeps
    every stored password a bcrypt hash. *)
Theorem user_save_stores_password_hash {bc : Bcrypt} (laws : BcryptLaws bc) :
  (forall d salt,
     pre_save d salt
     = if d_passwordModified d
       then option_map
              (fun p => mkUserDocument (d_id d) (d_name d) (d_email d)
                          (Some (bcrypt_hash p 10 salt)) (d_createdAt d) (d_isNew d) true)
              (d_password d)
       else Some d)
  /\ (forall d p w saved w',
        d_passwordModified d = true -> d_password d = Some p ->
        User_save d w = (inr saved, w') ->
        exists r,
          In r (users w') /\ u_id r = d_id d /\ saved = document_of r
          /\ u_password r = bcrypt_hash p 10 (rng w)
          /\ u_password r <> p
          /\ (forall c, comparePassword saved (VStr c)
                        = Some (bcrypt_compare c (bcrypt_hash p 10 (rng w))))
          /\ comparePassword saved (VStr p) = Some true
          /\ (forall c, bcrypt_key c = bcrypt_key p ->
                        comparePassword saved (VStr c) = Some true)
          /\ (forall v, (forall c, v <> VStr c) -> comparePassword saved v = None))
  /\ (forall d w res w',
        passwords_hashed w -> tracked d -> User_save d w = (res, w') ->
        passwords_hashed w').
Proof.
  split; [| split].
  - intros d salt. unfold pre_save.
    destruct (d_passwordModified d) eqn:Hm; simpl; [| reflexivity].
    destruct (d_password d); reflexivity.
  - intros d p w saved w' Hm Hp Hs.
    destruct (User_save_inr d saved w w' Hs) as (r & -> & Hin & Hid & _ & Hpw).
    rewrite Hm, Hp in Hpw. simpl in Hpw. injection Hpw as Hpw.
    exists r. split; [exact Hin |]. split; [exact Hid |]. split; [reflexivity |].
    split; [exact Hpw |]. split; [rewrite Hpw; apply hash_differs |].
    unfold comparePassword; simpl. rewrite Hpw.
    split; [reflexivity |]. split; [| split].
    + rewrite compare_same_key; reflexivity.
    + intros c Hkey. rewrite (compare_same_key c p 10 (rng w) Hkey). reflexivity.
    + intros v Hv. destruct v as [| | | |c| | | |]; try reflexivity.
      destruct (Hv c eq_refl).
  - intros d w res w'. apply User_save_keeps_hashed.
Qed.

Lemma user_save_stores_password_hash_witness :
  exists r,
    In r (users one_user_world) /\ u_id r = 0%nat
    /\ u_password r = "$2a$password123"
    /\ u_password r <> "password123"
    /\ comparePassword (bc := fixture_bcrypt) (document_of r) (VStr "password123")
       = Some true
    /\ comparePassword (bc := fixture_bcrypt) (document_of r) VUndefined = None.
Proof.
  destruct (proj1 (proj2 (user_save_stores_password_hash fixture_bcrypt_laws))
              (new_User 0 existing_user_input) "password123" (fresh_id empty_world)
              (document_of (mkUserRecord 0 "Existing User" "test@example.com"
                              "$2a$password123" 1700000000000 1700000000000))
              one_user_world eq_refl eq_refl eq_refl)
    as (r & Hin & Hid & Hdoc & Hpw & Hne & _ & Hcmp & _ & Hnot).
  exists r. split; [exact Hin |]. split; [exact Hid |]. split; [exact Hpw |].
  split; [exact Hne |]. rewrite <- Hdoc. split; [exact Hcmp |].
  apply Hnot. discriminate.
Defined.

(** C4 as stated fails in its last part: [comparePassword] answers true
    for a candidate that is not the password that was supplied.  The two
    passwords differ, in their 73rd character, and the validation chain of
    register lets the first through; whatever bcrypt is, once the first is
    saved the second is accepted; and so it is in the run with the
    stand-in. *)
Lemma comparePassword_accepts_another_password :
  long_password <> other_long_password
  /\ valid_registration (vd := fixture_validator) long_password_input
  /\ (forall (bc : Bcrypt), BcryptLaws bc ->
      forall d w saved w',
        d_passwordModified d = true -> d_password d = Some long_password ->
        User_save d w = (inr saved, w') ->
        comparePassword saved (VStr other_long_password) = Some true)
  /\ (exists saved w',
        User_save (bc := fixture_bcrypt) (new_User 0 long_password_input)
          (fresh_id empty_world) = (inr saved, w')
        /\ comparePassword (bc := fixture_bcrypt) saved (VStr other_long_password)
           = Some true).
Proof.
  split; [discriminate |]. split.
  { unfold valid_registration; simpl. repeat split; lia. }
  split.
  - intros bc laws d w saved w' Hm Hp Hs.
    destruct (User_save_inr d saved w w' Hs) as (r & -> & _ & _ & _ & Hpw).
    rewrite Hm, Hp in Hpw. simpl in Hpw. injection Hpw as Hpw.
    unfold comparePassword; simpl. rewrite Hpw.
    rewrite compare_same_key; reflexivity.
  - eexists. eexists. split; reflexivity.
Qed.

(** ** The schemas *)

Lemma eqb_empty_false (s : string) : String.eqb s "" = false <-> s <> "".
Proof. apply String.eqb_neq. Qed.

Lemma validate_user_nil (d : UserDocument) :
  validate userSchema (user_fields d) = []
  <-> to_s (d_name d) <> "" /\ to_s (d_email d) <> "" /\ to_s (d_password d) <> "".
Proof.
  unfold validate, user_fields; simpl. unfold required_ok, well_typed; simpl.
  destruct (d_name d) as [n|], (d_email d) as [e|], (d_password d) as [p|]; simpl;
    repeat match goal with
           | |- context [String.eqb ?x ""] =>
               let H := fresh "H" in destruct (String.eqb x "") eqn:H;
               [apply String.eqb_eq in H | apply String.eqb_neq in H]
           end; simpl; split; intros Hx;
    try discriminate; try tauto; try (destruct Hx as (? & ? & ?); congruence).
Qed.

Lemma duplicate_key_false (d : UserDocument) (e : string) (us : list UserRecord) :
  d_email d = Some e ->
  duplicate_key d us = false
  <-> (forall u, In u us -> u_id u <> d_id d -> u_email u <> e).
Proof.
  intros He. unfold duplicate_key; simpl. rewrite He; simpl. rewrite orb_false_r.
  split.
  - intros Hex u Hin Hid Heq.
    assert (Ht : existsb (fun u0 => negb (Nat.eqb (u_id u0) (d_id d))
                                    && String.eqb e (u_email u0)) us = true).
    { apply existsb_exists. exists u. split; [exact Hin |].
      apply andb_true_iff. split.
      - apply negb_true_iff. apply Nat.eqb_neq. exact Hid.
      - apply String.eqb_eq. symmetry. exact Heq. }
    congruence.
  - intros Hall.
    destruct (existsb _ us) eqn:Hex; [| reflexivity].
    apply existsb_exists in Hex. destruct Hex as (u & Hin & Hb).
    apply andb_true_iff in Hb. destruct Hb as [Hid Heq].
    apply negb_true_iff, Nat.eqb_neq in Hid. apply String.eqb_eq in Heq.
    exfalso. apply (Hall u Hin Hid). symmetry. exact Heq.
Qed.

Lemma validate_post_nil (i : PostInput) :
  validate postSchema (post_fields i) = [] <-> post_input_ok i.
Proof.
  unfold validate, post_fields, post_input_ok; simpl.
  unfold required_ok, well_typed; simpl.
  destruct (in_title i) as [t|], (in_content i) as [c|], (in_author i) as [a|]; simpl;
    repeat match goal with
           | |- context [String.eqb ?x ""] =>
               let H := fresh "H" in destruct (String.eqb x "") eqn:H;
               [apply String.eqb_eq in H | apply String.eqb_neq in H]
           end; simpl; split; intros Hx;
    try discriminate; try tauto; try (destruct Hx as (? & ? & ?); congruence).
  all: repeat split; auto; discriminate.
Qed.

Lemma new_User_paths (id : nat) (i : UserInput) :
  to_s (d_name (new_User id i)) = trim (to_s (in_name i))
  /\ to_s (d_email (new_User id i)) = to_s (in_email i)
  /\ to_s (d_password (new_User id i)) = to_s (in_password i).
Proof.
  unfold new_User, set_string; simpl.
  destruct (in_name i), (in_email i), (in_password i); simpl; auto.
Qed.

Section SchemaFacts.
Context {bc : Bcrypt}.

Lemma User_save_new_ok (id : nat) (i : UserInput) (w : World) :
  user_input_ok i -> email_free id (to_s (in_email i)) w ->
  User_save (new_User id i) w
  = (inr (document_of (saved_user id i w)),
     with_users (users w ++ [saved_user id i w])%list
       (fresh_salt (called (CallSaveUser id) w))).
Proof.
  intros (Hn & He & Hp) Hfree. unfold User_save.
  destruct (validate userSchema (user_fields (new_User id i))) eqn:Hv.
  2:{ exfalso. assert (Hnil : validate userSchema (user_fields (new_User id i)) = []).
      { apply validate_user_nil. destruct (new_User_paths id i) as (-> & -> & ->). auto. }
      congruence. }
  destruct (in_name i) as [n|] eqn:Hin; [| exfalso; apply Hn; reflexivity].
  destruct (in_email i) as [e|] eqn:Hie; [| exfalso; apply He; reflexivity].
  destruct (in_password i) as [p|] eqn:Hip; [| exfalso; apply Hp; reflexivity].
  unfold pre_save, new_User, set_string; simpl. rewrite Hin, Hie, Hip; simpl.
  match goal with |- context [duplicate_key ?a ?b] => destruct (duplicate_key a b) eqn:Hd end.
  - exfalso.
    assert (Hf : duplicate_key
                   (mkUserDocument id (Some (trim n)) (Some e)
                      (Some (bcrypt_hash p 10 (rng w))) None true true)
                   (users w) = false).
    { apply (duplicate_key_false _ e); [reflexivity |]. exact Hfree. }
    simpl in Hd. congruence.
  - unfold saved_user. rewrite Hin, Hie, Hip. reflexivity.
Qed.

Lemma User_save_new_inr (id : nat) (i : UserInput) (w w' : World) (saved : UserDocument) :
  User_save (new_User id i) w = (inr saved, w') ->
  user_input_ok i /\ email_free id (to_s (in_email i)) w.
Proof.
  unfold User_save.
  destruct (validate userSchema (user_fields (new_User id i))) eqn:Hv; [| discriminate].
  apply validate_user_nil in Hv.
  destruct (new_User_paths id i) as (H1 & H2 & H3). rewrite H1, H2, H3 in Hv.
  destruct (pre_save (new_User id i) _) as [d1|] eqn:Hpre; [| discriminate].
  assert (Hd1 : d_email d1 = in_email i /\ d_id d1 = id).
  { unfold pre_save, new_User, set_string in Hpre; simpl in Hpre.
    destruct (in_password i); simpl in Hpre; injection Hpre as <-; simpl; auto. }
  destruct Hd1 as [Hde Hdi].
  destruct (d_name d1), (d_email d1) as [e|] eqn:He, (d_password d1); try discriminate.
  destruct (duplicate_key d1 _) eqn:Hd; [discriminate |].
  intros _. split; [exact Hv |].
  pose proof (proj1 (duplicate_key_false d1 e _ He) Hd) as Hfree.
  rewrite Hdi in Hfree. rewrite <- Hde. simpl.
  intros u Hin. apply Hfree.
  destruct (d_passwordModified (new_User id i)); exact Hin.
Qed.

End SchemaFacts.

Lemma Post_save_ok (i : PostInput) (w : World) :
  post_input_ok i ->
  exists t c a,
    in_title i = Some t /\ in_content i = Some c /\ in_author i = Some a
    /\ Post_save i w
       = (inr (mkPostRecord (next_id w) t c a (now w) (now w)),
          with_posts (posts w ++ [mkPostRecord (next_id w) t c a (now w) (now w)])%list
            (called (CallSavePost (next_id w)) (fresh_id w))).
Proof.
  intros Hok. unfold Post_save.
  destruct (validate postSchema (post_fields i)) eqn:Hv.
  2:{ apply validate_post_nil in Hok. congruence. }
  destruct Hok as (Ht & Hc & Ha).
  destruct (in_title i) as [t|]; [| exfalso; apply Ht; reflexivity].
  destruct (in_content i) as [c|]; [| exfalso; apply Hc; reflexivity].
  destruct (in_author i) as [a|]; [| exfalso; apply Ha; reflexivity].
  exists t, c, a. repeat split.
Qed.

Lemma Post_save_inr (i : PostInput) (w w' : World) (r : PostRecord) :
  Post_save i w = (inr r, w') -> post_input_ok i.
Proof.
  unfold Post_save.
  destruct (validate postSchema (post_fields i)) eqn:Hv; [| discriminate].
  intros _. apply validate_post_nil. exact Hv.
Qed.

(** C5, as amended: there are two schemas.  A user has the paths name,
    email and password, a post title, content and author, all required;
    only the email is uniquely indexed; the author is an ObjectId that
    refers to User; the name is trimmed when set; both schemas keep
    timestamps.  A first save of [new User(i)] succeeds exactly when the
    trimmed name, the email and the password are not empty and no other
    user has the email, and it stores the trimmed name, the email, the
    hash of the password and the time; a save of a new post succeeds
    exactly when title and content are not empty and an author is given,
    whether or not a user has that id. *)
Theorem schemas_enforce_required_unique_trim :
  (map fst (paths userSchema) = ["name"; "email"; "password"]
   /\ map fst (paths postSchema) = ["title"; "content"; "author"]
   /\ forallb (fun ko => required (snd ko)) (paths userSchema ++ paths postSchema)%list = true
   /\ unique_paths userSchema = ["email"] /\ unique_paths postSchema = []
   /\ schema_path "author" (paths postSchema)
      = Some (mkPath SObjectId true false false (Some "User"))
   /\ map fst (List.filter (fun ko => trim_setter (snd ko))
                 (paths userSchema ++ paths postSchema)%list) = ["name"]
   /\ timestamps userSchema = true /\ timestamps postSchema = true)
  /\ (forall (bc : Bcrypt) id i w,
        (exists saved w', User_save (new_User id i) w = (inr saved, w'))
        <-> user_input_ok i /\ email_free id (to_s (in_email i)) w)
  /\ (forall (bc : Bcrypt) id i w,
        user_input_ok i -> email_free id (to_s (in_email i)) w ->
        User_save (new_User id i) w
        = (inr (document_of (saved_user id i w)),
           with_users (users w ++ [saved_user id i w])%list
             (fresh_salt (called (CallSaveUser id) w))))
  /\ (forall i w, (exists r w', Post_save i w = (inr r, w')) <-> post_input_ok i).
Proof.
  split; [repeat split |]. split; [| split].
  - intros bc id i w. split.
    + intros (saved & w' & Hs). exact (User_save_new_inr id i w w' saved Hs).
    + intros [Hok Hfree]. rewrite (User_save_new_ok id i w Hok Hfree). eauto.
  - intros bc id i w. apply User_save_new_ok.
  - intros i w. split.
    + intros (r & w' & Hs). exact (Post_save_inr i w w' r Hs).
    + intros Hok. destruct (Post_save_ok i w Hok) as (t & c & a & _ & _ & _ & ->). eauto.
Qed.

Lemma schemas_enforce_required_unique_trim_witness :
  User_create (bc := fixture_bcrypt) padded_name_input empty_world
  = (inr (document_of (mkUserRecord 0 "Al" "al@example.com" "$2a$password123"
                         1700000000000 1700000000000)),
     mkWorld [mkUserRecord 0 "Al" "al@example.com" "$2a$password123"
                1700000000000 1700000000000]
       [] 1 1 1700000000000 [CallSaveUser 0] []).
Proof.
  apply (proj1 (proj2 (proj2 schemas_enforce_required_unique_trim))
           fixture_bcrypt 0%nat padded_name_input (fresh_id empty_world)).
  - repeat split; discriminate.
  - intros u [].
Defined.

(** C5 as stated fails: the user schema enforces more than presence.  A
    name of three spaces is there and is not empty, yet the save is
    refused with a ValidationError and nothing is stored; and a name
    with spaces around it is stored without them. *)
Lemma user_schema_trims_name :
  (in_name blank_name_input = Some "   "
   /\ forall bc : Bcrypt,
        exists e, fst (User_create blank_name_input empty_world) = inl e
                  /\ err_name e = "ValidationError"
                  /\ users (snd (User_create blank_name_input empty_world)) = [])
  /\ (in_name padded_name_input = Some "  Al  "
      /\ forall bc : Bcrypt,
           map u_name (users (snd (User_create padded_name_input empty_world))) = ["Al"]).
Proof.
  split; split; try reflexivity.
  intros bc. eexists. repeat split.
Qed.

(** ** Socket.IO listeners *)

Example authenticated_socket_is_sock1 : authenticated_socket = Some sock1.
Proof. reflexivity. Qed.

Lemma run_all_single (now : Z) (l : listener) (s : SocketData) (arg : value) :
  run_all now [l] s arg = run_listener now l s arg.
Proof.
  simpl. destruct (run_listener now l s arg) as [a es t]; simpl.
  destruct t; [reflexivity |]. rewrite app_nil_r. reflexivity.
Qed.

Lemma filter_app_single {A} (f : A -> bool) (xs : list A) (x : A) :
  List.filter f (xs ++ [x])%list
  = (List.filter f xs ++ (if f x then [x] else []))%list.
Proof. rewrite List.filter_app. reflexivity. Qed.

Lemma listeners_on (event event' : string) (l : listener) (s : Socket) :
  listeners event (on event' l s)
  = (listeners event s ++ (if String.eqb event' event then [l] else []))%list.
Proof.
  unfold listeners, on; simpl. rewrite filter_app_single, map_app; simpl.
  destruct (String.eqb event' event); reflexivity.
Qed.

Lemma listeners_removeAllListeners (event : string) (s : Socket) :
  listeners event (removeAllListeners event s) = [].
Proof.
  unfold listeners, removeAllListeners; simpl.
  induction (registered s) as [|[e l] rest IH]; simpl; [reflexivity |].
  destruct (String.eqb e event) eqn:He; simpl; [exact IH |].
  rewrite He. exact IH.
Qed.

(** After routes/socket.js ran, the socket has one disconnect listener:
    the new one, holding the first of those registered before. *)
Lemma listeners_disconnect_socket_routes (s : Socket) :
  listeners "disconnect" (socket_routes s)
  = [on_disconnect_presence (hd_error (listeners "disconnect" s))].
Proof.
  unfold socket_routes. rewrite listeners_on, listeners_removeAllListeners.
  rewrite !listeners_on. simpl. rewrite !app_nil_r. reflexivity.
Qed.

Lemma data_socket_routes (s : Socket) : data (socket_routes s) = data s.
Proof. reflexivity. Qed.

(** C6, as amended: a sendMessage event carrying an object makes the
    server emit one [message] event to the room the object names, [io.to]
    reaching every socket of that room; the payload holds the [message]
    and the [sender] of the event and the server's time, and neither the
    [room] nor anything else of the received object. *)
Theorem sendMessage_emits_message_sender_timestamp
    (now : Z) (d : SocketData) (props : list (string * value)) (a : Adapter) :
  dispatch now (fst (connection d)) "sendMessage" (VObj props)
  = (fst (connection d),
     mkOutcome d
       [Emit (IoTo (assoc "room" props)) "message"
          (VObj [("message", assoc "message" props); ("sender", assoc "sender" props);
                 ("timestamp", VDate now)])]
       false)
  /\ recipients a (IoTo (assoc "room" props)) = members a (assoc "room" props).
Proof. split; reflexivity. Qed.

(** C6 as stated fails: the payload of the emitted event is not the
    received object; [room] is gone and [timestamp] is new. *)
Lemma sendMessage_payload_is_not_the_data :
  effects (snd (dispatch 1700000000000 (fst (connection sock1)) "sendMessage" hello_message))
  = [Emit (IoTo (VStr "general")) "message"
       (VObj [("message", VStr "hi"); ("sender", VStr "bob");
              ("timestamp", VDate 1700000000000)])]
  /\ VObj [("message", VStr "hi"); ("sender", VStr "bob");
           ("timestamp", VDate 1700000000000)] <> hello_message.
Proof. split; [reflexivity | discriminate]. Qed.

Example hello_reaches_the_room :
  recipients chat_adapter (IoTo (VStr "general")) = {[ "sock1"; "sock2" ]}.
Proof. vm_compute. reflexivity. Qed.

(** C7: a typing event carrying [{ room, user }] makes the server emit
    [userTyping] with [{ user, isTyping: true }], a stopTyping event the
    same with [isTyping: false], both through [socket.to(room)]: to the
    sockets of the room other than the sender, who gets neither. *)
Theorem typing_and_stopTyping_relayed
    (now : Z) (d : SocketData) (props : list (string * value)) (a : Adapter) :
  snd (dispatch now (fst (connection d)) "typing" (VObj props))
  = mkOutcome d
      [Emit (SocketTo (socket_id d) (assoc "room" props)) "userTyping"
         (VObj [("user", assoc "user" props); ("isTyping", VBool true)])]
      false
  /\ snd (dispatch now (fst (connection d)) "stopTyping" (VObj props))
     = mkOutcome d
         [Emit (SocketTo (socket_id d) (assoc "room" props)) "userTyping"
            (VObj [("user", assoc "user" props); ("isTyping", VBool false)])]
         false
  /\ recipients a (SocketTo (socket_id d) (assoc "room" props))
     = members a (assoc "room" props) ∖ {[socket_id d]}
  /\ socket_id d ∉ recipients a (SocketTo (socket_id d) (assoc "room" props)).
Proof.
  split; [reflexivity |]. split; [reflexivity |]. split; [reflexivity |].
  unfold recipients. intros Hin. apply elem_of_difference in Hin.
  destruct Hin as [_ Hnot]. apply Hnot. apply elem_of_singleton. reflexivity.
Qed.

Example typing_reaches_the_other :
  recipients chat_adapter (SocketTo "sock1" (VStr "general")) = {[ "sock2" ]}.
Proof. vm_compute. reflexivity. Qed.

Lemma keeps_socket_after (now : Z) (l : listener) :
  forall s arg, keeps_socket l = true -> after (run_listener now l s arg) = s.
Proof.
  revert l. fix IH 1. intros l s arg Hk.
  destruct l as [ | | | | | | | | | original | run ]; simpl in *;
    try discriminate; try reflexivity.
  - destruct (prop arg "message"), (prop arg "room"), (prop arg "sender"); reflexivity.
  - destruct (prop arg "room"), (prop arg "user"); reflexivity.
  - destruct (prop arg "room"), (prop arg "user"); reflexivity.
  - destruct (prop arg "userId"), (prop arg "notification"); reflexivity.
  - destruct (prop arg "postId"), (prop arg "comment"), (prop arg "userId"); reflexivity.
  - destruct original as [o|]; [| reflexivity]. simpl. apply IH. exact Hk.
Qed.

Lemma is_userOnline_after (now : Z) (l : listener) (s : SocketData) (arg : value) :
  is_userOnline l = true ->
  run_listener now l s arg
  = mkOutcome (mkSocketData (socket_id s) arg (socket_user s))
      [Emit (SocketBroadcast (socket_id s)) "userStatusChanged" (status_changed arg "online")]
      false.
Proof. destruct l; simpl; try discriminate. reflexivity. Qed.

(** A run of listeners that did not throw changed the socket only if a
    userOnline listener was among them. *)
Lemma run_all_after (now : Z) (ls : list listener) :
  Forall (fun l => keeps_socket l || is_userOnline l = true) ls ->
  forall s arg,
    threw (run_all now ls s arg) = false ->
    after (run_all now ls s arg)
    = if existsb is_userOnline ls
      then mkSocketData (socket_id s) arg (socket_user s) else s.
Proof.
  induction 1 as [| l rest Hl _ IH]; intros s arg Ht; [reflexivity |].
  simpl in *. destruct (threw (run_listener now l s arg)) eqn:Hthrew.
  - congruence.
  - simpl in *. rewrite (IH _ _ Ht).
    apply orb_true_iff in Hl. destruct Hl as [Hk | Hu].
    + rewrite (keeps_socket_after now l s arg Hk).
      assert (Hn : is_userOnline l = false) by (destruct l; simpl in *; congruence).
      rewrite Hn. reflexivity.
    + rewrite Hu, (is_userOnline_after now l s arg Hu). simpl.
      destruct (existsb is_userOnline rest); reflexivity.
Qed.

Lemma listeners_removeAllListeners_any (event event' : string) (s : Socket) :
  listeners event (removeAllListeners event' s)
  = if String.eqb event' event then [] else listeners event s.
Proof.
  destruct (String.eqb event' event) eqn:He.
  - apply String.eqb_eq in He. subst event'. apply listeners_removeAllListeners.
  - unfold listeners, removeAllListeners; simpl.
    induction (registered s) as [|[e l] rest IH]; simpl; [reflexivity |].
    destruct (String.eqb e event') eqn:He'; simpl.
    + apply String.eqb_eq in He'. subst e. rewrite He. exact IH.
    + destruct (String.eqb e event); simpl; rewrite IH; reflexivity.
Qed.

(** The listeners of the application, event by event. *)
Lemma connection_listeners (d : SocketData) (event : string) :
  Forall (fun l => keeps_socket l || is_userOnline l = true)
    (listeners event (fst (connection d)))
  /\ existsb is_userOnline (listeners event (fst (connection d)))
     = String.eqb "userOnline" event.
Proof.
  unfold connection, socket_routes; cbv zeta; cbn [fst].
  rewrite listeners_on, listeners_removeAllListeners_any, !listeners_on.
  change (listeners event (mkSocket d [])) with (@nil listener).
  repeat match goal with
         | |- context [String.eqb ?a event] =>
             let H := fresh "H" in destruct (String.eqb a event) eqn:H
         end;
    (split; [repeat constructor | try reflexivity]).
  all: exfalso;
    repeat match goal with
           | H : String.eqb _ _ = true |- _ => apply String.eqb_eq in H
           end;
    congruence.
Qed.

(** In the application only a userOnline event changes the socket: it
    sets [socket.userId] to what the event carries. *)
Lemma dispatch_connection (now : Z) (d : SocketData) (event : string) (arg : value) :
  threw (snd (dispatch now (fst (connection d)) event arg)) = false ->
  fst (dispatch now (fst (connection d)) event arg)
  = fst (connection (if String.eqb "userOnline" event
                     then mkSocketData (socket_id d) arg (socket_user d) else d)).
Proof.
  intros Ht. unfold dispatch in *. cbn [fst snd] in *.
  destruct (connection_listeners d event) as [Hall Hex].
  change (data (fst (connection d))) with d in *.
  rewrite (run_all_after now _ Hall d arg Ht), Hex.
  destruct (String.eqb "userOnline" event); reflexivity.
Qed.

Lemma userId_after_events (now : Z) (events : list (string * value)) :
  forall d s' es,
    run_events now (fst (connection d)) events = (s', es, false) ->
    exists d', s' = fst (connection d')
               /\ socket_id d' = socket_id d
               /\ userId d' = last_userOnline (userId d) events.
Proof.
  induction events as [| [event arg] rest IH]; intros d s' es Hrun.
  - cbn [run_events] in Hrun. inversion Hrun; subst. exists d. auto.
  - cbn [run_events] in Hrun.
    pose proof (dispatch_connection now d event arg) as Hstep.
    destruct (dispatch now (fst (connection d)) event arg) as [s1 o].
    cbn [fst snd] in Hstep.
    destruct (threw o); [discriminate |].
    rewrite (Hstep eq_refl) in Hrun. clear Hstep.
    destruct (run_events now _ rest) as [[s2 es2] t2] eqn:Hrest.
    inversion Hrun; subst. clear Hrun.
    destruct (IH _ _ _ Hrest) as (d' & Hs & Hid & Hu).
    exists d'. split; [exact Hs |]. cbn [last_userOnline].
    destruct (String.eqb "userOnline" event); cbn [socket_id userId] in *; auto.
Qed.

(** In the application the first listener is the one app.js registered:
    it logs the disconnection, after the broadcast. *)
Lemma app_disconnect (now : Z) (d : SocketData) (arg : value) :
  snd (dispatch now (fst (connection d)) "disconnect" arg)
  = mkOutcome d
      (presence_offline d ++ [Log [VStr "User disconnected:"; VStr (socket_id d)]])%list
      false.
Proof.
  unfold dispatch, presence_offline; simpl.
  destruct (truthy (userId d)); reflexivity.
Qed.

(** C10, as amended: once routes/socket.js ran, the socket has one
    disconnect listener.  On disconnect it broadcasts userStatusChanged
    [{ userId: socket.userId, status: "offline" }] exactly when
    [socket.userId] is truthy at that moment, and then calls the first
    disconnect listener registered before, without arguments, whenever
    there was one.  In the application [socket.userId] is by then what
    the last userOnline event carried, or, when none came, what the socket
    connected with (socketAuth sets it from the token); the listener
    called afterwards is the one of app.js, which logs. *)
Theorem disconnect_presence_then_original (now : Z) (s : Socket) (arg : value) :
  listeners "disconnect" (socket_routes s)
  = [on_disconnect_presence (hd_error (listeners "disconnect" s))]
  /\ snd (dispatch now (socket_routes s) "disconnect" arg)
     = match hd_error (listeners "disconnect" s) with
       | Some original =>
           let o := run_listener now original (data s) VUndefined in
           mkOutcome (after o) (presence_offline (data s) ++ effects o)%list (threw o)
       | None => mkOutcome (data s) (presence_offline (data s)) false
       end
  /\ (presence_offline (data s)
      = [Emit (SocketBroadcast (socket_id (data s))) "userStatusChanged"
           (status_changed (userId (data s)) "offline")]
      <-> truthy (userId (data s)) = true)
  /\ (presence_offline (data s) = [] <-> truthy (userId (data s)) = false)
  /\ (forall d events s' es,
        run_events now (fst (connection d)) events = (s', es, false) ->
        effects (snd (dispatch now s' "disconnect" arg))
        = ((if truthy (last_userOnline (userId d) events)
            then [Emit (SocketBroadcast (socket_id d)) "userStatusChanged"
                    (status_changed (last_userOnline (userId d) events) "offline")]
            else [])
           ++ [Log [VStr "User disconnected:"; VStr (socket_id d)]])%list).
Proof.
  split; [apply listeners_disconnect_socket_routes |]. split; [| split; [| split]].
  - unfold dispatch; simpl. rewrite listeners_disconnect_socket_routes, run_all_single.
    simpl. destruct (hd_error (listeners "disconnect" s)); reflexivity.
  - unfold presence_offline. destruct (truthy (userId (data s))); split;
      intros H; try reflexivity; discriminate.
  - unfold presence_offline. destruct (truthy (userId (data s))); split;
      intros H; try reflexivity; discriminate.
  - intros d events s' es Hrun.
    destruct (userId_after_events now events d s' es Hrun) as (d' & -> & Hid & Hu).
    rewrite (app_disconnect now d' arg). simpl.
    unfold presence_offline. rewrite Hu, Hid. reflexivity.
Qed.

Lemma disconnect_presence_then_original_witness :
  effects (snd (dispatch 1700000000000
                  (fst (fst (run_events 1700000000000
                               (fst (connection (mkSocketData "sock1" VUndefined VUndefined)))
                               [("userOnline", VStr "u7")])))
                  "disconnect" (VStr "transport close")))
  = [Emit (SocketBroadcast "sock1") "userStatusChanged" (status_changed (VStr "u7") "offline");
     Log [VStr "User disconnected:"; VStr "sock1"]].
Proof.
  apply (proj2 (proj2 (proj2 (proj2
           (disconnect_presence_then_original 1700000000000
              (fst (connection sock1)) (VStr "transport close")))))
           (mkSocketData "sock1" VUndefined VUndefined) [("userOnline", VStr "u7")] _
           [Emit (SocketBroadcast "sock1") "userStatusChanged"
              (status_changed (VStr "u7") "online")]).
  reflexivity.
Defined.

(** C10 as stated fails in both directions.  A socket that came through
    socketAuth has [userId] set from its token: it never received
    userOnline, and its disconnection is broadcast.  And a socket that
    received userOnline with an empty id disconnects without a broadcast. *)
Lemma disconnect_broadcast_not_iff_userOnline :
  authenticated_socket = Some sock1
  /\ run_events 1700000000000 (fst (connection sock1)) [("disconnect", VStr "transport close")]
     = (fst (connection sock1),
        [Emit (SocketBroadcast "sock1") "userStatusChanged" (status_changed (VStr "u1") "offline");
         Log [VStr "User disconnected:"; VStr "sock1"]],
        false)
  /\ snd (fst (run_events 1700000000000 (fst (connection sock1))
                 [("userOnline", VStr ""); ("disconnect", VStr "transport close")]))
     = [Emit (SocketBroadcast "sock1") "userStatusChanged" (status_changed (VStr "") "online");
        Log [VStr "User disconnected:"; VStr "sock1"]].
Proof. repeat split. Qed.

(** * Further properties of the code *)

(** ** Tokens: auth, socketAuth and admin *)

Lemma bearer_token_prefixed (t : string) (u : value) :
  bearer_token (mkAuthReq (Some (String.append "Bearer " t)) u) = Some t.
Proof. destruct t; reflexivity. Qed.

Lemma replace_first_absent (pat rep s : string) :
  occurs pat s = false -> replace_first pat rep s = s.
Proof.
  induction s as [|c s IH]; simpl; intros H.
  - apply orb_false_iff in H. destruct H as [-> _]. reflexivity.
  - apply orb_false_iff in H. destruct H as [-> H]. rewrite (IH H). reflexivity.
Qed.

(** X1: the Bearer scheme is optional.  A header that is the bare token
    is treated as the header "Bearer " followed by the token, provided the
    token does not itself contain "Bearer " (no JSON Web Token does): the
    same response, the same call of [next()], the same [req.user]. *)
Theorem auth_bearer_prefix_optional {jwt : Jwt} (secret t : string) (u : value) :
  occurs "Bearer " t = false ->
  sent (auth secret (mkAuthReq (Some t) u))
  = sent (auth secret (mkAuthReq (Some (String.append "Bearer " t)) u))
  /\ next_called (auth secret (mkAuthReq (Some t) u))
     = next_called (auth secret (mkAuthReq (Some (String.append "Bearer " t)) u))
  /\ user (req_after (auth secret (mkAuthReq (Some t) u)))
     = user (req_after (auth secret (mkAuthReq (Some (String.append "Bearer " t)) u))).
Proof.
  intros Habs. unfold auth.
  rewrite bearer_token_prefixed.
  unfold bearer_token; simpl. rewrite (replace_first_absent _ _ _ Habs).
  destruct (String.eqb t ""); [repeat split |].
  destruct (jwt_verify t secret) as [decoded|]; [| repeat split].
  destruct (prop decoded "id"); repeat split.
Qed.

Lemma auth_bearer_prefix_optional_witness :
  sent (auth (jwt := fixture_jwt) "s3cret" (mkAuthReq (Some "good.token") VUndefined))
  = sent (auth (jwt := fixture_jwt) "s3cret"
            (mkAuthReq (Some (String.append "Bearer " "good.token")) VUndefined))
  /\ next_called (auth (jwt := fixture_jwt) "s3cret"
                    (mkAuthReq (Some "good.token") VUndefined))
     = next_called (auth (jwt := fixture_jwt) "s3cret"
                      (mkAuthReq (Some (String.append "Bearer " "good.token")) VUndefined))
  /\ user (req_after (auth (jwt := fixture_jwt) "s3cret"
                        (mkAuthReq (Some "good.token") VUndefined)))
     = user (req_after (auth (jwt := fixture_jwt) "s3cret"
                          (mkAuthReq (Some (String.append "Bearer " "good.token"))
                             VUndefined))).
Proof.
  apply (auth_bearer_prefix_optional (jwt := fixture_jwt) "s3cret" "good.token" VUndefined).
  reflexivity.
Defined.

(** X2: the two middlewares judge a token alike.  socketAuth lets a
    connection through on a token exactly when auth calls [next()] on the
    header "Bearer " followed by that token; then [socket.userId] is the
    [id] that auth puts in [req.user], [socket.user] is the verified
    payload and the socket keeps its id; otherwise auth answers 401. *)
Theorem socketAuth_agrees_with_auth {jwt : Jwt} (secret t : string)
    (s : SocketData) (u : value) :
  match socketAuth secret (Some t) s with
  | Some s' =>
      next_called (auth secret (mkAuthReq (Some (String.append "Bearer " t)) u)) = true
      /\ user (req_after (auth secret (mkAuthReq (Some (String.append "Bearer " t)) u)))
         = VObj [("id", userId s')]
      /\ jwt_verify t secret = Some (socket_user s')
      /\ socket_id s' = socket_id s
  | None =>
      next_called (auth secret (mkAuthReq (Some (String.append "Bearer " t)) u)) = false
      /\ exists msg,
           sent (auth secret (mkAuthReq (Some (String.append "Bearer " t)) u))
           = Some (json_error 401 msg)
  end.
Proof.
  unfold socketAuth, auth. rewrite bearer_token_prefixed.
  destruct (String.eqb t ""); [split; [reflexivity | eexists; reflexivity] |].
  destruct (jwt_verify t secret) as [decoded|];
    [| split; [reflexivity | eexists; reflexivity]].
  destruct (prop decoded "id") as [id|];
    [| split; [reflexivity | eexists; reflexivity]].
  simpl. repeat split.
Qed.

(** X3: the admin routes cannot be reached.  auth leaves
    [req.user = { id }], which has no [role], so behind
    [router.use(auth); router.use(admin)] every request is answered 401 by
    auth or else 403 by admin; [next()] is never called and nothing
    throws. *)
Theorem admin_routes_unreachable {jwt : Jwt} (secret : string) (req : AuthReq) :
  exists out r,
    auth_then_admin secret req = Some out
    /\ sent out = Some r
    /\ next_called out = false
    /\ (status r = 401 \/ r = json_error 403 "Access denied. Admin role required.").
Proof.
  unfold auth_then_admin, auth.
  destruct (bearer_token req) as [tok|];
    [| eexists; eexists; repeat split; left; reflexivity].
  destruct (String.eqb tok "");
    [eexists; eexists; repeat split; left; reflexivity |].
  destruct (jwt_verify tok secret) as [decoded|];
    [| eexists; eexists; repeat split; left; reflexivity].
  destruct (prop decoded "id") as [id|];
    [| eexists; eexists; repeat split; left; reflexivity].
  simpl. eexists; eexists; repeat split. right; reflexivity.
Qed.

(** ** Posts *)

Lemma post_json_users (r : PostRecord) (w1 w2 : World) :
  users w1 = users w2 -> post_json r w1 = post_json r w2.
Proof. unfold post_json, populate_author. intros ->. reflexivity. Qed.

Lemma find_post_app_new (n : nat) (ps : list PostRecord) (r : PostRecord) :
  (forall q, In q ps -> p_id q <> p_id r) ->
  find (fun q => Nat.eqb (p_id q) n) (ps ++ [r])%list
  = if Nat.eqb (p_id r) n then Some r else find (fun q => Nat.eqb (p_id q) n) ps.
Proof.
  induction ps as [|q rest IH]; intros Hfresh; simpl.
  - destruct (Nat.eqb (p_id r) n); reflexivity.
  - destruct (Nat.eqb (p_id q) n) eqn:Hq.
    + destruct (Nat.eqb (p_id r) n) eqn:Hr; [| reflexivity].
      apply Nat.eqb_eq in Hq, Hr. exfalso.
      apply (Hfresh q); [left; reflexivity | congruence].
    + apply IH. intros q' Hin. apply Hfresh. right. exact Hin.
Qed.

Lemma create_post_ok (t c : string) (a : nat) (req : AuthReq) (w : World) :
  prop (user req) "id" = Some (VObjectId a) -> t <> "" -> c <> "" ->
  create_post (Some t) (Some c) req w
  = (mkResponse 201 (post_json (created_post t c a w) (created_world t c a w)),
     created_world t c a w).
Proof.
  intros Hid Ht Hc. unfold create_post. rewrite Hid.
  destruct (Post_save_ok (mkPostInput (Some t) (Some c) (Some a)) w)
    as (t' & c' & a' & Et & Ec & Ea & ->).
  { repeat split; simpl; congruence. }
  simpl in Et, Ec, Ea. injection Et as <-. injection Ec as <-. injection Ea as <-.
  reflexivity.
Qed.

Lemma Post_save_inl (i : PostInput) (w w' : World) (e : JsError) :
  Post_save i w = (inl e, w') ->
  w' = called (CallSavePost (next_id w)) (fresh_id w).
Proof.
  unfold Post_save.
  destruct (validate postSchema (post_fields i)).
  - destruct (set_string postSchema "title" (in_title i));
      destruct (set_string postSchema "content" (in_content i));
      destruct (in_author i); intros H; try discriminate H;
      injection H as _ <-; reflexivity.
  - intros H. injection H as _ <-. reflexivity.
Qed.

(** What [create_post] leaves: the users as they were, and the posts as
    they were or one more. *)
Lemma create_post_cases (title content : option string) (req : AuthReq) (w : World) :
  users (snd (create_post title content req w)) = users w
  /\ (posts (snd (create_post title content req w)) = posts w
      /\ status (fst (create_post title content req w)) = 500
      \/ exists t c a,
           title = Some t /\ content = Some c /\ t <> "" /\ c <> ""
           /\ prop (user req) "id" = Some (VObjectId a)
           /\ create_post title content req w
              = (mkResponse 201 (post_json (created_post t c a w) (created_world t c a w)),
                 created_world t c a w)).
Proof.
  assert (Hnone : forall w1 r,
             Post_save (mkPostInput title content None) w = (inr r, w1) -> False).
  { intros w1 r Hs. apply Post_save_inr in Hs. destruct Hs as (_ & _ & Ha).
    apply Ha. reflexivity. }
  unfold create_post.
  destruct (prop (user req) "id") as [id|] eqn:Hid; [| split; [| left]; auto].
  destruct id; try (split; [| left]; simpl; auto; fail).
  - destruct (Post_save (mkPostInput title content None) w) as [[e|r] w1] eqn:Hs.
    + apply Post_save_inl in Hs. subst w1. split; [| left]; auto.
    + exfalso. exact (Hnone _ _ eq_refl).
  - destruct (Post_save (mkPostInput title content None) w) as [[e|r] w1] eqn:Hs.
    + apply Post_save_inl in Hs. subst w1. split; [| left]; auto.
    + exfalso. exact (Hnone _ _ eq_refl).
  - destruct (Post_save (mkPostInput title content (Some oid)) w) as [[e|r] w1] eqn:Hs.
    + apply Post_save_inl in Hs. subst w1. split; [| left]; auto.
    + pose proof (Post_save_inr _ _ _ _ Hs) as (Ht & Hc & _). simpl in Ht, Hc.
      destruct title as [t|]; [| exfalso; apply Ht; reflexivity].
      destruct content as [c|]; [| exfalso; apply Hc; reflexivity].
      simpl in Ht, Hc.
      pose proof (create_post_ok t c oid req w Hid Ht Hc) as Hok.
      unfold create_post in Hok. rewrite Hid, Hs in Hok.
      split.
      * apply (f_equal snd) in Hok. simpl in Hok. simpl. rewrite Hok. reflexivity.
      * right. exists t, c, oid. repeat split; auto.
Qed.

(** X4: [POST /api/posts] with a token that verifies to an ObjectId and
    a title and a content that are not empty answers 201 and stores one
    post, whose author is the id of the token, whether or not a user has
    that id; the response is the stored post with its author populated. *)
Theorem posts_create_stores_post_of_token_owner {jwt : Jwt}
    (secret tok t c : string) (decoded : value) (a : nat) (req : AuthReq) (w : World) :
  bearer_token req = Some tok -> String.eqb tok "" = false ->
  jwt_verify tok secret = Some decoded -> prop decoded "id" = Some (VObjectId a) ->
  t <> "" -> c <> "" ->
  posts_create secret (Some t) (Some c) req w
  = (mkResponse 201 (post_json (created_post t c a w) (created_world t c a w)),
     created_world t c a w)
  /\ posts (created_world t c a w) = (posts w ++ [created_post t c a w])%list
  /\ p_author (created_post t c a w) = a
  /\ users (created_world t c a w) = users w.
Proof.
  intros Htok Hne Hv Hid Ht Hc. split; [| repeat split].
  unfold posts_create, guarded.
  rewrite (auth_with_token secret req tok Htok Hne), Hv, Hid. simpl.
  apply create_post_ok; auto.
Qed.

Lemma posts_create_stores_post_of_token_owner_witness :
  posts_create (jwt := oid_jwt) "s3cret" (Some "Hello") (Some "First post")
    (mkAuthReq (Some "Bearer token7") VUndefined) one_user_world
  = (mkResponse 201
       (VObj [("_id", VObjectId 1); ("title", VStr "Hello"); ("content", VStr "First post");
              ("author", VNull); ("createdAt", VDate 1700000000000);
              ("updatedAt", VDate 1700000000000); ("__v", VNum 0)]),
     created_world "Hello" "First post" 7 one_user_world)
  /\ posts (created_world "Hello" "First post" 7 one_user_world)
     = (posts one_user_world ++ [created_post "Hello" "First post" 7 one_user_world])%list
  /\ p_author (created_post "Hello" "First post" 7 one_user_world) = 7%nat
  /\ users (created_world "Hello" "First post" 7 one_user_world) = users one_user_world.
Proof.
  apply (posts_create_stores_post_of_token_owner (jwt := oid_jwt) "s3cret" "token7"
           "Hello" "First post"
           (VObj [("id", VObjectId 7); ("iat", VNum 1700000000)]) 7
           (mkAuthReq (Some "Bearer token7") VUndefined) one_user_world);
    try reflexivity; discriminate.
Defined.

Lemma posts_create_cases {jwt : Jwt}
    (secret : string) (title content : option string) (req : AuthReq) (w : World) :
  users (snd (posts_create secret title content req w)) = users w
  /\ (posts (snd (posts_create secret title content req w)) = posts w
      /\ status (fst (posts_create secret title content req w)) <> 201
      \/ exists tok decoded a t c,
           bearer_token req = Some tok /\ jwt_verify tok secret = Some decoded
           /\ prop decoded "id" = Some (VObjectId a)
           /\ title = Some t /\ content = Some c
           /\ posts_create secret title content req w
              = (mkResponse 201 (post_json (created_post t c a w) (created_world t c a w)),
                 created_world t c a w)
           /\ posts (snd (posts_create secret title content req w))
              = (posts w ++ [created_post t c a w])%list).
Proof.
  unfold posts_create, guarded, auth.
  destruct (bearer_token req) as [tok|] eqn:Htok;
    [| split; [| left; split]; simpl; auto; discriminate].
  destruct (String.eqb tok "");
    [split; [| left; split]; simpl; auto; discriminate |].
  destruct (jwt_verify tok secret) as [decoded|] eqn:Hv;
    [| split; [| left; split]; simpl; auto; discriminate].
  destruct (prop decoded "id") as [id|] eqn:Hid;
    [| split; [| left; split]; simpl; auto; discriminate].
  simpl.
  destruct (create_post_cases title content
              (mkAuthReq (authorization req) (VObj [("id", id)])) w)
    as [Hu [[Hp Hst] | (t & c & a & -> & -> & Ht & Hc & Ha & Heq)]].
  - split; [exact Hu |]. left. split; [exact Hp |]. rewrite Hst. discriminate.
  - split; [exact Hu |]. right. simpl in Ha. injection Ha as ->.
    exists tok, decoded, a, t, c. rewrite Heq. repeat split; auto.
Qed.


(** X5: [POST /api/posts] never touches the users, and it stores a post
    only for a request whose token verifies: either the posts are as they
    were and the answer is not 201, or the token of the request verified to
    an ObjectId, title and content were given, and exactly one post was
    added, with that id as its author. *)
Theorem posts_create_only_with_verified_token {jwt : Jwt}
    (secret : string) (title content : option string) (req : AuthReq) (w : World) :
  users (snd (posts_create secret title content req w)) = users w
  /\ (posts (snd (posts_create secret title content req w)) = posts w
      /\ status (fst (posts_create secret title content req w)) <> 201
      \/ exists tok decoded a t c,
           bearer_token req = Some tok /\ jwt_verify tok secret = Some decoded
           /\ prop decoded "id" = Some (VObjectId a)
           /\ title = Some t /\ content = Some c
           /\ posts_create secret title content req w
              = (mkResponse 201 (post_json (created_post t c a w) (created_world t c a w)),
                 created_world t c a w)
           /\ posts (snd (posts_create secret title content req w))
              = (posts w ++ [created_post t c a w])%list).
Proof. apply posts_create_cases. Qed.

(** X6: a post that was created can be read back.  After a 201 from
    [POST /api/posts] in a state whose ObjectIds are below the next one,
    [GET /api/posts/:id] with the new id answers 200 with the body of the
    201, every other id reads as before, and [GET /api/posts] lists what
    it listed before followed by the new post. *)
Theorem created_post_reads_back {jwt : Jwt}
    (secret : string) (title content : option string) (req : AuthReq)
    (w w' : World) (body : value) :
  ids_fresh w ->
  posts_create secret title content req w = (mkResponse 201 body, w') ->
  get_post (Some (next_id w)) w' = mkResponse 200 body
  /\ (forall n, n <> next_id w -> get_post (Some n) w' = get_post (Some n) w)
  /\ list_posts w'
     = mkResponse 200 (VArr (map (fun r => post_json r w) (posts w) ++ [body])%list).
Proof.
  intros [_ Hfresh] Hcreate.
  destruct (posts_create_cases secret title content req w)
    as [_ [[_ Hst] | (tok & decoded & a & t & c & _ & _ & _ & _ & _ & Heq & _)]].
  { rewrite Hcreate in Hst. exfalso. apply Hst. reflexivity. }
  rewrite Heq in Hcreate. injection Hcreate as Hbody <-.
  assert (Hnew : forall q, In q (posts w) -> p_id q <> p_id (created_post t c a w)).
  { intros q Hin. specialize (Hfresh q Hin). simpl. lia. }
  assert (Hjson : forall r, post_json r (created_world t c a w) = post_json r w).
  { intros r. apply post_json_users. reflexivity. }
  split; [| split].
  - unfold get_post. simpl posts.
    rewrite (find_post_app_new _ _ _ Hnew). simpl p_id. rewrite Nat.eqb_refl.
    rewrite <- Hbody. reflexivity.
  - intros n Hn. unfold get_post. simpl posts.
    rewrite (find_post_app_new _ _ _ Hnew). simpl p_id.
    destruct (Nat.eqb (next_id w) n) eqn:He; [apply Nat.eqb_eq in He; congruence |].
    destruct (find _ (posts w)); [rewrite Hjson |]; reflexivity.
  - unfold list_posts. simpl posts. rewrite map_app. simpl.
    rewrite <- Hbody.
    rewrite (map_ext _ (fun r => post_json r w) Hjson). reflexivity.
Qed.

Lemma ids_fresh_one_user_world : ids_fresh one_user_world.
Proof.
  split.
  - intros u [<- | []]. simpl. lia.
  - intros r [].
Qed.

Lemma created_post_reads_back_witness :
  get_post (Some 1%nat) (created_world "Hello" "First post" 7 one_user_world)
  = mkResponse 200 (post_json (created_post "Hello" "First post" 7 one_user_world)
                      (created_world "Hello" "First post" 7 one_user_world))
  /\ (forall n, n <> 1%nat ->
        get_post (Some n) (created_world "Hello" "First post" 7 one_user_world)
        = get_post (Some n) one_user_world)
  /\ list_posts (created_world "Hello" "First post" 7 one_user_world)
     = mkResponse 200
         (VArr [post_json (created_post "Hello" "First post" 7 one_user_world)
                  (created_world "Hello" "First post" 7 one_user_world)]).
Proof.
  apply (created_post_reads_back (jwt := oid_jwt) "s3cret" (Some "Hello")
           (Some "First post") (mkAuthReq (Some "Bearer token7") VUndefined)
           one_user_world).
  - exact ids_fresh_one_user_world.
  - reflexivity.
Defined.

Example get_post_missing :
  get_post (Some 5%nat) one_user_world = json_error 404 "Post not found"
  /\ get_post None one_user_world = json_error 500 "Server error".
Proof. split; reflexivity. Qed.

(** ** Registration, then login *)

Lemma trim_end_idempotent (s : string) : trim_end (trim_end s) = trim_end s.
Proof.
  induction s as [|c s IH]; [reflexivity |].
  simpl. destruct (trim_end s) as [|c' t] eqn:Ht.
  - destruct (is_space c) eqn:Hc; simpl; [reflexivity | rewrite Hc; reflexivity].
  - simpl in *. rewrite IH. reflexivity.
Qed.

Lemma trim_start_head (s : string) :
  trim_start s = "" \/ exists c t, trim_start s = String c t /\ is_space c = false.
Proof.
  induction s as [|c s IH]; [left; reflexivity |].
  simpl. destruct (is_space c) eqn:Hc; [exact IH |].
  right. exists c, s. auto.
Qed.

Lemma trim_start_trim_end (c : ascii) (t : string) :
  is_space c = false -> trim_start (trim_end (String c t)) = trim_end (String c t).
Proof.
  intros Hc. simpl. destruct (trim_end t); [rewrite Hc |]; simpl; rewrite Hc; reflexivity.
Qed.

Lemma trim_idempotent (s : string) : trim (trim s) = trim s.
Proof.
  unfold trim. destruct (trim_start_head s) as [-> | (c & t & -> & Hc)]; [reflexivity |].
  rewrite (trim_start_trim_end c t Hc). apply trim_end_idempotent.
Qed.

Lemma find_email_none (email : string) (us : list UserRecord) :
  ~ (exists u, In u us /\ u_email u = email) ->
  find (fun u => String.eqb (u_email u) email) us = None.
Proof.
  intros Hno. destruct (find _ us) as [u|] eqn:Hf; [| reflexivity].
  apply find_some in Hf. destruct Hf as [Hin He]. apply String.eqb_eq in He.
  exfalso. apply Hno. exists u. auto.
Qed.

Lemma find_email_app_new (email : string) (us : list UserRecord) (r : UserRecord) :
  find (fun u => String.eqb (u_email u) email) us = None ->
  find (fun u => String.eqb (u_email u) email) (us ++ [r])%list
  = if String.eqb (u_email r) email then Some r else None.
Proof.
  induction us as [|u rest IH]; simpl; [reflexivity |].
  destruct (String.eqb (u_email u) email); [discriminate | exact IH].
Qed.

Section RegisterThenLogin.
Context {jwt : Jwt} {bc : Bcrypt} {vd : Validator}.
Variable JWT_SECRET : string.

(** What a registration of a valid body with a new email does, up to the
    signing of the token. *)
Lemma register_valid_new (b : UserInput) (w : World) :
  valid_registration b ->
  ~ email_taken (normalizeEmail (to_s (in_email b))) w ->
  normalizeEmail (to_s (in_email b)) <> "" ->
  register JWT_SECRET b w
  = match jwt_sign (VObj [("id", VObjectId (next_id w))]) JWT_SECRET (now w) with
    | Some token =>
        (mkResponse 201
           (token_body token
              (user_json (next_id w) (trim (to_s (in_name b)))
                 (normalizeEmail (to_s (in_email b))))),
         registered_world b w)
    | None => (json_error 500 "Server error", registered_world b w)
    end.
Proof.
  intros Hvalid Hnew Hne.
  pose proof (proj1 (register_chain_valid b) Hvalid) as Hchain.
  destruct Hvalid as (Hname & _ & Hpw).
  unfold register. destruct (register_chain b) as [errors body] eqn:Hc.
  simpl in Hchain. subst errors.
  assert (Hbody : body = mkUserInput (Some (trim (to_s (in_name b))))
                           (Some (normalizeEmail (to_s (in_email b)))) (in_password b)).
  { unfold register_chain in Hc. injection Hc as _ <-. reflexivity. }
  subst body. simpl to_s. unfold User_findOne.
  rewrite (find_email_none _ _ Hnew). simpl option_map. cbv iota beta.
  set (w1 := called (CallFindOneUser (normalizeEmail (to_s (in_email b)))) w).
  set (body := mkUserInput (Some (trim (to_s (in_name b))))
                 (Some (normalizeEmail (to_s (in_email b)))) (in_password b)).
  assert (Hok : user_input_ok body).
  { unfold user_input_ok, body; simpl. rewrite trim_idempotent. repeat split.
    - intros H. rewrite H in Hname. simpl in Hname. lia.
    - exact Hne.
    - intros H. rewrite H in Hpw. simpl in Hpw. lia. }
  assert (Hfree : email_free (next_id w1) (to_s (in_email body)) (fresh_id w1)).
  { intros u Hin _ He. apply Hnew. exists u. split; [exact Hin | exact He]. }
  rewrite (User_save_new_ok (next_id w1) body (fresh_id w1) Hok Hfree).
  unfold saved_user, body; simpl. rewrite trim_idempotent.
  destruct (jwt_sign _ JWT_SECRET _); reflexivity.
Qed.

End RegisterThenLogin.

Lemma register_users_cases {jwt : Jwt} {bc : Bcrypt} {vd : Validator}
    (secret : string) (b : UserInput) (w : World) :
  users (snd (register secret b w)) = users w
  \/ (find (fun u => String.eqb (u_email u) (normalizeEmail (to_s (in_email b)))) (users w)
      = None
      /\ exists r, users (snd (register secret b w)) = (users w ++ [r])%list
                   /\ u_email r = normalizeEmail (to_s (in_email b))
                   /\ u_id r = next_id w).
Proof.
  unfold register. destruct (register_chain b) as [errors body] eqn:Hc.
  destruct errors; [| left; reflexivity].
  assert (Hb : to_s (in_email body) = normalizeEmail (to_s (in_email b))).
  { unfold register_chain in Hc. injection Hc as _ <-. reflexivity. }
  rewrite Hb. unfold User_findOne.
  destruct (find _ (users w)) as [u|] eqn:Hfind; [left; reflexivity |].
  simpl option_map. cbv iota beta.
  set (w1 := called (CallFindOneUser (normalizeEmail (to_s (in_email b)))) w).
  destruct (User_save (new_User (next_id w1) body) (fresh_id w1)) as [[e|saved] w2] eqn:Hs.
  - left. simpl. rewrite (User_save_inl _ _ _ _ Hs). reflexivity.
  - right. split; [reflexivity |].
    destruct (User_save_new_inr _ _ _ _ _ Hs) as [Hok Hfree].
    rewrite (User_save_new_ok _ _ _ Hok Hfree) in Hs. injection Hs as _ <-.
    exists (saved_user (next_id w1) body (fresh_id w1)).
    split; [destruct (jwt_sign _ secret _); reflexivity |].
    split; [simpl; exact Hb | reflexivity].
Qed.

(** X7: a registration that passes validation with an email no stored
    user has (and that [normalizeEmail] does not empty) is answered 201
    with the token [jwt.sign] made for the new id and the user's id,
    trimmed name and normalized email; exactly one user is added, with
    that name and email and the bcrypt hash of the password. *)
Theorem register_new_user_created {jwt : Jwt} {bc : Bcrypt} {vd : Validator}
    (secret token : string) (b : UserInput) (w : World) :
  valid_registration b ->
  ~ email_taken (normalizeEmail (to_s (in_email b))) w ->
  normalizeEmail (to_s (in_email b)) <> "" ->
  jwt_sign (VObj [("id", VObjectId (next_id w))]) secret (now w) = Some token ->
  register secret b w
  = (mkResponse 201
       (token_body token
          (user_json (next_id w) (trim (to_s (in_name b)))
             (normalizeEmail (to_s (in_email b))))),
     registered_world b w)
  /\ users (registered_world b w)
     = (users w
        ++ [mkUserRecord (next_id w) (trim (to_s (in_name b)))
              (normalizeEmail (to_s (in_email b)))
              (bcrypt_hash (to_s (in_password b)) 10 (rng w)) (now w) (now w)])%list
  /\ posts (registered_world b w) = posts w.
Proof.
  intros Hvalid Hnew Hne Hsign.
  rewrite (register_valid_new secret b w Hvalid Hnew Hne), Hsign. repeat split.
Qed.

Lemma register_new_user_created_witness :
  register (jwt := fixture_jwt) (bc := fixture_bcrypt) (vd := lowering_validator)
    "s3cret" mixed_case_request empty_world
  = (mkResponse 201
       (token_body "good.token" (user_json 0 "Test User" "test@example.com")),
     registered_world (bc := fixture_bcrypt) (vd := lowering_validator)
       mixed_case_request empty_world)
  /\ users (registered_world (bc := fixture_bcrypt) (vd := lowering_validator)
              mixed_case_request empty_world)
     = [mkUserRecord 0 "Test User" "test@example.com" "$2a$password123"
          1700000000000 1700000000000]
  /\ posts (registered_world (bc := fixture_bcrypt) (vd := lowering_validator)
              mixed_case_request empty_world) = [].
Proof.
  apply (register_new_user_created (jwt := fixture_jwt) (bc := fixture_bcrypt)
           (vd := lowering_validator) "s3cret" "good.token" mixed_case_request empty_world).
  - unfold valid_registration; simpl. repeat split; lia.
  - intros (u & [] & _).
  - discriminate.
  - reflexivity.
Defined.

(** X8: the user is stored before the token is signed.  When [jwt.sign]
    throws, a valid registration with a new email is answered 500 "Server
    error" although the user has been added; the same request again is
    then answered 400 "User already exists" and adds nothing. *)
Theorem register_stores_before_signing {jwt : Jwt} {bc : Bcrypt} {vd : Validator}
    (secret : string) (b : UserInput) (w : World) :
  valid_registration b ->
  ~ email_taken (normalizeEmail (to_s (in_email b))) w ->
  normalizeEmail (to_s (in_email b)) <> "" ->
  jwt_sign (VObj [("id", VObjectId (next_id w))]) secret (now w) = None ->
  register secret b w = (json_error 500 "Server error", registered_world b w)
  /\ users (registered_world b w) = (users w ++ [registered_user b w])%list
  /\ fst (register secret b (registered_world b w)) = json_error 400 "User already exists"
  /\ users (snd (register secret b (registered_world b w))) = users (registered_world b w).
Proof.
  intros Hvalid Hnew Hne Hsign.
  rewrite (register_valid_new secret b w Hvalid Hnew Hne), Hsign.
  split; [reflexivity |]. split; [reflexivity |].
  assert (Htaken : email_taken (normalizeEmail (to_s (in_email b))) (registered_world b w)).
  { exists (registered_user b w). split; [| reflexivity].
    simpl. apply in_or_app. right. left. reflexivity. }
  rewrite (register_valid_taken secret b _ (proj1 (register_chain_valid b) Hvalid) Htaken).
  split; reflexivity.
Qed.

Lemma register_stores_before_signing_witness :
  register (jwt := unsigned_jwt) (bc := fixture_bcrypt) (vd := fixture_validator)
    "" duplicate_request empty_world
  = (json_error 500 "Server error",
     registered_world (bc := fixture_bcrypt) (vd := fixture_validator)
       duplicate_request empty_world)
  /\ users (registered_world (bc := fixture_bcrypt) (vd := fixture_validator)
              duplicate_request empty_world)
     = ([] ++ [registered_user (bc := fixture_bcrypt) (vd := fixture_validator)
                 duplicate_request empty_world])%list
  /\ fst (register (jwt := unsigned_jwt) (bc := fixture_bcrypt) (vd := fixture_validator)
            "" duplicate_request
            (registered_world (bc := fixture_bcrypt) (vd := fixture_validator)
               duplicate_request empty_world))
     = json_error 400 "User already exists"
  /\ users (snd (register (jwt := unsigned_jwt) (bc := fixture_bcrypt)
                   (vd := fixture_validator) "" duplicate_request
                   (registered_world (bc := fixture_bcrypt) (vd := fixture_validator)
                      duplicate_request empty_world)))
     = users (registered_world (bc := fixture_bcrypt) (vd := fixture_validator)
                duplicate_request empty_world).
Proof.
  apply (register_stores_before_signing (jwt := unsigned_jwt) (bc := fixture_bcrypt)
           (vd := fixture_validator) "" duplicate_request empty_world).
  - unfold valid_registration; simpl. repeat split; lia.
  - intros (u & [] & _).
  - discriminate.
  - reflexivity.
Defined.

(** What a 201 from register tells. *)
Lemma register_201 {jwt : Jwt} {bc : Bcrypt} {vd : Validator}
    (secret : string) (b : UserInput) (w w' : World) (body : value) :
  register secret b w = (mkResponse 201 body, w') ->
  valid_registration b
  /\ ~ email_taken (normalizeEmail (to_s (in_email b))) w
  /\ normalizeEmail (to_s (in_email b)) <> "".
Proof.
  intros Hreg.
  assert (Hchain : fst (register_chain b) = []).
  { destruct (fst (register_chain b)) eqn:Hc; [reflexivity |].
    rewrite (register_invalid secret b w) in Hreg by (rewrite Hc; discriminate).
    discriminate Hreg. }
  assert (Hnew : ~ email_taken (normalizeEmail (to_s (in_email b))) w).
  { intros Htaken. rewrite (register_valid_taken secret b w Hchain Htaken) in Hreg.
    discriminate Hreg. }
  split; [apply register_chain_valid; exact Hchain |]. split; [exact Hnew |].
  revert Hreg. unfold register.
  destruct (register_chain b) as [errors sanitized] eqn:Hc. simpl in Hchain. subst errors.
  assert (Hsan : sanitized = mkUserInput (Some (trim (to_s (in_name b))))
                               (Some (normalizeEmail (to_s (in_email b))))
                               (in_password b)).
  { unfold register_chain in Hc. injection Hc as _ <-. reflexivity. }
  subst sanitized. simpl to_s. unfold User_findOne.
  rewrite (find_email_none _ _ Hnew). simpl option_map. cbv iota beta.
  destruct (User_save _ _) as [[e|saved] w2] eqn:Hs; [discriminate |].
  destruct (User_save_new_inr _ _ _ _ _ Hs) as [(_ & He & _) _].
  intros _. exact He.
Qed.

(** X9: who registered can log in.  After a 201 from register, a login
    at any later reading of the clock with the normalized email and the
    password of the registration is answered 200 with the token
    [jwt.sign] makes at that reading for the same id and with the user
    object of the 201, or 500 "Server error" when [jwt.sign] throws then
    (bcrypt accepting the password it hashed). *)
Theorem register_then_login {jwt : Jwt} {bc : Bcrypt} {vd : Validator}
    (laws : BcryptLaws bc) (secret : string) (b : UserInput) (w w' : World)
    (body : value) (t : Z) :
  register secret b w = (mkResponse 201 body, w') ->
  exists token u,
    body = token_body token u
    /\ jwt_sign (VObj [("id", VObjectId (next_id w))]) secret (now w) = Some token
    /\ fst (login secret
              (mkLoginBody (normalizeEmail (to_s (in_email b)))
                 (VStr (to_s (in_password b))))
              (at_time t w'))
       = match jwt_sign (VObj [("id", VObjectId (next_id w))]) secret t with
         | Some token' => mkResponse 200 (token_body token' u)
         | None => json_error 500 "Server error"
         end.
Proof.
  intros Hreg.
  destruct (register_201 secret b w w' body Hreg) as (Hvalid & Hnew & Hne).
  rewrite (register_valid_new secret b w Hvalid Hnew Hne) in Hreg.
  destruct (jwt_sign _ secret (now w)) as [token|] eqn:Hsign; [| discriminate].
  injection Hreg as <- <-.
  exists token. eexists. split; [reflexivity |]. split; [reflexivity |].
  unfold login, User_findOne. simpl users. simpl login_email.
  rewrite (find_email_app_new _ _ _ (find_email_none _ _ Hnew)). simpl u_email.
  rewrite String.eqb_refl. simpl option_map. cbv iota beta.
  unfold comparePassword. simpl login_password. simpl d_password. cbv iota beta.
  rewrite compare_same_key by reflexivity. simpl d_id. simpl now.
  destruct (jwt_sign _ secret t); reflexivity.
Qed.

Lemma register_then_login_witness :
  exists token u,
    token_body "good.token" (user_json 0 "Test User" "test@example.com")
    = token_body token u
    /\ jwt_sign (Jwt := fixture_jwt) (VObj [("id", VObjectId 0)]) "s3cret" 1700000000000
       = Some token
    /\ fst (login (jwt := fixture_jwt) (bc := fixture_bcrypt) "s3cret"
              (mkLoginBody "test@example.com" (VStr "password123"))
              (at_time 1700000060000
                 (registered_world (bc := fixture_bcrypt) (vd := lowering_validator)
                    mixed_case_request empty_world)))
       = mkResponse 200 (token_body "good.token" u).
Proof.
  apply (register_then_login (jwt := fixture_jwt) (bc := fixture_bcrypt)
           (vd := lowering_validator) fixture_bcrypt_laws "s3cret" mixed_case_request
           empty_world
           (registered_world (bc := fixture_bcrypt) (vd := lowering_validator)
              mixed_case_request empty_world)
           (token_body "good.token" (user_json 0 "Test User" "test@example.com"))
           1700000060000).
  reflexivity.
Defined.

(** X10: register normalizes the email, login does not.  After a 201
    from register for an email that [normalizeEmail] changes, a login with
    the email as it was typed is answered 400 "Invalid credentials",
    whatever the password, unless another stored user has that very
    email. *)
Theorem login_with_unnormalized_email_fails {jwt : Jwt} {bc : Bcrypt} {vd : Validator}
    (secret : string) (b : UserInput) (w w' : World) (body : value) (password : value) :
  register secret b w = (mkResponse 201 body, w') ->
  normalizeEmail (to_s (in_email b)) <> to_s (in_email b) ->
  ~ email_taken (to_s (in_email b)) w ->
  fst (login secret (mkLoginBody (to_s (in_email b)) password) w')
  = json_error 400 "Invalid credentials".
Proof.
  intros Hreg Hchanged Hraw.
  destruct (register_201 secret b w w' body Hreg) as (Hvalid & Hnew & Hne).
  rewrite (register_valid_new secret b w Hvalid Hnew Hne) in Hreg.
  destruct (jwt_sign _ secret _) as [token|]; [| discriminate].
  injection Hreg as _ <-.
  unfold login, User_findOne. simpl users. simpl login_email.
  rewrite (find_email_app_new _ _ _ (find_email_none _ _ Hraw)). simpl u_email.
  apply String.eqb_neq in Hchanged. rewrite Hchanged. reflexivity.
Qed.

Lemma login_with_unnormalized_email_fails_witness :
  fst (login (jwt := fixture_jwt) (bc := fixture_bcrypt) "s3cret"
         (mkLoginBody "Test@Example.com" (VStr "password123"))
         (registered_world (bc := fixture_bcrypt) (vd := lowering_validator)
            mixed_case_request empty_world))
  = json_error 400 "Invalid credentials".
Proof.
  apply (login_with_unnormalized_email_fails (jwt := fixture_jwt) (bc := fixture_bcrypt)
           (vd := lowering_validator) "s3cret" mixed_case_request empty_world
           (registered_world (bc := fixture_bcrypt) (vd := lowering_validator)
              mixed_case_request empty_world)
           (token_body "good.token" (user_json 0 "Test User" "test@example.com"))
           (VStr "password123")).
  - reflexivity.
  - discriminate.
  - intros (u & [] & _).
Defined.

Lemma find_email_none_not_in (email : string) (us : list UserRecord) :
  find (fun u => String.eqb (u_email u) email) us = None ->
  ~ In email (map u_email us).
Proof.
  intros Hf Hin. apply in_map_iff in Hin. destruct Hin as (u & He & Hin).
  pose proof (find_none _ _ Hf u Hin) as Hn. simpl in Hn.
  rewrite He, String.eqb_refl in Hn. discriminate.
Qed.

(** X11: register keeps the emails of the stored users distinct: if no
    two stored users share an email before a registration request, none
    do after it, whatever the request. *)
Theorem register_keeps_emails_unique {jwt : Jwt} {bc : Bcrypt} {vd : Validator}
    (secret : string) (b : UserInput) (w : World) :
  emails_unique w -> emails_unique (snd (register secret b w)).
Proof.
  unfold emails_unique. intros Huniq.
  destruct (register_users_cases secret b w)
    as [-> | (Hnone & r & -> & Hemail & _)]; [exact Huniq |].
  rewrite map_app. simpl.
  apply List.NoDup_app; [exact Huniq | |].
  - apply List.NoDup_cons; [intros [] | apply List.NoDup_nil].
  - intros e Hin [<- | []]. rewrite Hemail in Hin.
    exact (find_email_none_not_in _ _ Hnone Hin).
Qed.

Lemma emails_unique_one_user_world : emails_unique one_user_world.
Proof.
  unfold emails_unique; simpl.
  apply List.NoDup_cons; [intros [] | apply List.NoDup_nil].
Qed.

Lemma register_keeps_emails_unique_witness :
  emails_unique
    (snd (register (jwt := fixture_jwt) (bc := fixture_bcrypt) (vd := fixture_validator)
            "s3cret" duplicate_request one_user_world)).
Proof.
  apply (register_keeps_emails_unique (jwt := fixture_jwt) (bc := fixture_bcrypt)
           (vd := fixture_validator) "s3cret" duplicate_request one_user_world).
  exact emails_unique_one_user_world.
Defined.

(** ** Rooms, notifications and malformed events *)

Lemma members_join (a : Adapter) (sid room : string) :
  members (join a sid (VStr room)) (VStr room) = {[sid]} ∪ members a (VStr room).
Proof. unfold join, members at 1; simpl. rewrite lookup_insert_eq. reflexivity. Qed.

(** X12: a socket that joined a room gets the notifications for it.
    After the server handled [join] with a room name, the socket is among
    those [io.to] of that name reaches, and nobody who was reached before
    is left out; and a sendNotification event emits one [notification]
    event to the room its [userId] names, whose payload is the
    [notification] it carried, unchanged. *)
Theorem join_then_notification_reaches
    (now : Z) (d : SocketData) (room : string) (a : Adapter)
    (props : list (string * value)) :
  let joined :=
    apply_effects a (effects (snd (dispatch now (fst (connection d)) "join" (VStr room)))) in
  socket_id d ∈ recipients joined (IoTo (VStr room))
  /\ recipients a (IoTo (VStr room)) ⊆ recipients joined (IoTo (VStr room))
  /\ snd (dispatch now (fst (connection d)) "sendNotification" (VObj props))
     = mkOutcome d
         [Emit (IoTo (assoc "userId" props)) "notification" (assoc "notification" props)]
         false.
Proof.
  cbv zeta.
  assert (Hj : apply_effects a
                 (effects (snd (dispatch now (fst (connection d)) "join" (VStr room))))
               = join a (socket_id d) (VStr room)) by reflexivity.
  rewrite Hj. unfold recipients. rewrite members_join.
  split; [set_solver |]. split; [set_solver | reflexivity].
Qed.

(** X13: events without data.  When a sendMessage, typing, stopTyping
    or sendNotification event arrives with [undefined] or [null] in place
    of its object, the listener throws before it emits anything and
    nothing catches it; an addComment event in the same case is caught
    and reported to the sender alone as "Failed to add comment". *)
Theorem events_without_data (now : Z) (d : SocketData) (arg : value) :
  arg = VUndefined \/ arg = VNull ->
  snd (dispatch now (fst (connection d)) "sendMessage" arg) = mkOutcome d [] true
  /\ snd (dispatch now (fst (connection d)) "typing" arg) = mkOutcome d [] true
  /\ snd (dispatch now (fst (connection d)) "stopTyping" arg) = mkOutcome d [] true
  /\ snd (dispatch now (fst (connection d)) "sendNotification" arg) = mkOutcome d [] true
  /\ snd (dispatch now (fst (connection d)) "addComment" arg)
     = mkOutcome d
         [Emit (SocketSelf (socket_id d)) "error"
            (VObj [("message", VStr "Failed to add comment")])]
         false.
Proof. intros [-> | ->]; repeat split. Qed.

Lemma events_without_data_witness :
  snd (dispatch 1700000000000 (fst (connection sock1)) "sendMessage" VUndefined)
  = mkOutcome sock1 [] true
  /\ snd (dispatch 1700000000000 (fst (connection sock1)) "typing" VUndefined)
     = mkOutcome sock1 [] true
  /\ snd (dispatch 1700000000000 (fst (connection sock1)) "stopTyping" VUndefined)
     = mkOutcome sock1 [] true
  /\ snd (dispatch 1700000000000 (fst (connection sock1)) "sendNotification" VUndefined)
     = mkOutcome sock1 [] true
  /\ snd (dispatch 1700000000000 (fst (connection sock1)) "addComment" VUndefined)
     = mkOutcome sock1
         [Emit (SocketSelf "sock1") "error"
            (VObj [("message", VStr "Failed to add comment")])]
         false.
Proof.
  apply (events_without_data 1700000000000 sock1 VUndefined). left. reflexivity.
Defined.

(** X14: routes/socket.js leaves the listeners of every event other than
    disconnect in place: after it ran, such an event has the listeners it
    had, in their order, followed by the one the file registers for it
    (newPost, addComment, userOnline), and the socket's properties are
    untouched. *)
Theorem socket_routes_keeps_other_listeners (s : Socket) (event : string) :
  event <> "disconnect" ->
  listeners event (socket_routes s)
  = (listeners event s
     ++ (if String.eqb "newPost" event then [on_newPost] else [])
     ++ (if String.eqb "addComment" event then [on_addComment] else [])
     ++ (if String.eqb "userOnline" event then [on_userOnline] else []))%list
  /\ data (socket_routes s) = data s.
Proof.
  intros Hne. split; [| reflexivity].
  unfold socket_routes.
  rewrite listeners_on, listeners_removeAllListeners_any, !listeners_on.
  assert (Hd : String.eqb "disconnect" event = false).
  { apply String.eqb_neq. congruence. }
  rewrite Hd. rewrite app_nil_r, <- !app_assoc. reflexivity.
Qed.

Lemma socket_routes_keeps_other_listeners_witness :
  listeners "userOnline" (socket_routes (on "userOnline" (foreign (fun s _ => mkOutcome s [] false))
                                           (mkSocket sock1 [])))
  = ([foreign (fun s _ => mkOutcome s [] false)] ++ [] ++ [] ++ [on_userOnline])%list
  /\ data (socket_routes (on "userOnline" (foreign (fun s _ => mkOutcome s [] false))
                            (mkSocket sock1 [])))
     = sock1.
Proof.
  apply (socket_routes_keeps_other_listeners
           (on "userOnline" (foreign (fun s _ => mkOutcome s [] false)) (mkSocket sock1 []))
           "userOnline").
  discriminate.
Defined.
